(** * pyinfra: the Host class and its fact facade (pyinfra/api/host.py)

    A shallow embedding of [pyinfra.api.host]: the [Host] class, which links
    a target machine to its connector ("executor") and to the deploy state,
    and [HostFacts], the per-host proxy that resolves facts by name.

    Python objects live in a store and are referred to by their index, so a
    facade and its host share one [Host] record.  Methods are computations
    in a state-and-exception monad over a [World]: the store of hosts, the
    chronological trace of everything that leaves the class (log lines,
    executor calls, calls into [pyinfra.api.facts]) and the state of the
    outside world the executors and the facts module act on. *)

From Stdlib Require Import ZArith Ascii.
From stdpp Require Import base option list strings gmap.

Open Scope string_scope.
Open Scope list_scope.

(** ** Python values and truthiness *)

(** The values that flow through the class: [None], booleans, integers,
    text, and instances of classes that define neither [__bool__] nor
    [__len__] (a paramiko client, the deploy [State]), named by an
    identifier. *)
Inductive pyval : Type :=
| PNone
| PBool (b : bool)
| PInt (z : Z)
| PStr (s : string)
| PObj (id : positive).

(** [bool(v)], the test behind [if v:] and [not v]. *)
Definition truthy (v : pyval) : bool :=
  match v with
  | PNone => false
  | PBool b => b
  | PInt z => negb (Z.eqb z 0)
  | PStr s => negb (String.eqb s EmptyString)
  | PObj _ => true
  end.

(** ** Exceptions *)

(** The exception classes the module meets.  [ConnectError] derives from
    [PyinfraError] (pyinfra/api/exceptions.py); [ConnectErrorSubclass]
    stands for any class derived from [ConnectError], [OtherException] for
    any class unrelated to these. *)
Inductive ExnClass : Type :=
| TypeError
| AttributeError
| IndexError
| ReferenceError
| PyinfraError
| ConnectError
| ConnectErrorSubclass (cls : string)
| OtherException (cls : string).

(** An exception instance: its class and its [args] tuple.  The arguments
    are text, as every [raise] of this code base passes messages. *)
Record Exn : Type := mkExn { exn_class : ExnClass; exn_args : list string }.

(** [isinstance(e, ConnectError)], what [except ConnectError] tests. *)
Definition isinstance_ConnectError (e : Exn) : bool :=
  match exn_class e with
  | ConnectError | ConnectErrorSubclass _ => true
  | _ => false
  end.

(** The outcome of a call: a returned value or a raised exception. *)
Inductive Res (A : Type) : Type :=
| Ok (a : A)
| Raise (e : Exn).
Arguments Ok {A} a.
Arguments Raise {A} e.

(** ** click.style *)

(** click's [_ansi_colors] tuple, in its order; the code of a foreground
    colour is its position plus 30. *)
Inductive AnsiColour : Type :=
| fg_black | fg_red | fg_green | fg_yellow | fg_blue | fg_magenta | fg_cyan
| fg_white | fg_reset.

Definition ansi_index (c : AnsiColour) : nat :=
  match c with
  | fg_black => 0 | fg_red => 1 | fg_green => 2 | fg_yellow => 3 | fg_blue => 4
  | fg_magenta => 5 | fg_cyan => 6 | fg_white => 7 | fg_reset => 8
  end.

Definition digit (n : nat) : string :=
  String (ascii_of_nat (48 + n)%nat) EmptyString.

Definition ESC : string := String (ascii_of_nat 27) EmptyString.

(** ["\033[%dm" % n] for a code below 100. *)
Definition ansi_code (n : nat) : string :=
  ESC +:+ "[" +:+ (if (n <? 10)%nat then digit n else digit (n / 10) +:+ digit (n mod 10)) +:+ "m".

Definition ansi_reset_all : string := ansi_code 0.

(** [click.style(text, fg, bold=bold)] with click's default [reset=True]:
    the colour code when [fg] is given, the bold code when [bold] is not
    [None], the text, then the reset code. *)
Definition style (text : string) (fg : option AnsiColour) (bold : option bool) : string :=
  (if fg is Some c then ansi_code (ansi_index c + 30) else EmptyString)
  +:+ (if bold is Some b then ansi_code (if b then 1 else 22) else EmptyString)
  +:+ text +:+ ansi_reset_all.

(** ['{0}[{1}] '.format(click.style(''), styled)], the text shared by
    [print_prefix] and [style_print_prefix]. *)
Definition prefix_format (styled : string) : string :=
  style EmptyString None None +:+ "[" +:+ styled +:+ "] ".

(** ** Connectors, hosts and the world *)

(** A host object, by its index in the store. *)
Abbreviation HostRef := nat.

(** A call into code outside the class: it answers or raises, and changes
    the outside world [E] (transports, remote machines, the fact cache, the
    executor's own bookkeeping such as [connector_data]).  It is given the
    host object but assigns none of the attributes below: in the sources
    [connection] is assigned by [Host.connect] alone, and [state] by the
    deploy that builds the hosts. *)
Definition External (E A : Type) : Type := E -> Res A * E.

Module Connector.
(** An executor, one of the modules of [EXECUTION_CONNECTORS].  Every
    operation receives the deploy state and the host; [disconnect] is the
    only optional attribute. *)
Record t (E : Type) : Type := mk {
  connect : pyval -> HostRef -> External E pyval;
  disconnect : option (pyval -> HostRef -> External E pyval);
  run_shell_command :
    pyval -> HostRef -> list pyval -> list (string * pyval) -> External E pyval;
  put_file :
    pyval -> HostRef -> list pyval -> list (string * pyval) -> External E pyval;
  get_file :
    pyval -> HostRef -> list pyval -> list (string * pyval) -> External E pyval
}.
Arguments mk {E}.
Arguments connect {E}.
Arguments disconnect {E}.
Arguments run_shell_command {E}.
Arguments put_file {E}.
Arguments get_file {E}.
End Connector.

(** The attributes of a [Host] instance that the methods below read or
    write.  [connection] and [state] start as the class attributes [None].
    [inventory], [data] and [connector_data] are left out: only the
    properties [host_data] and [group_data] and the executors use them. *)
Record Host (E : Type) : Type := mkHost {
  name : string;
  groups : list string;
  connection : pyval;
  state : pyval;
  executor : Connector.t E
}.
Arguments mkHost {E}.
Arguments name {E}.
Arguments groups {E}.
Arguments connection {E}.
Arguments state {E}.
Arguments executor {E}.

(** [Host.__init__]: the attributes given, [connection] and [state] left at
    the class defaults. *)
Definition Host__init__ {E} (nm : string) (grps : list string)
    (ex : Connector.t E) : Host E :=
  mkHost nm grps PNone PNone ex.

(** A [HostFacts] instance: the host it was built for, [None] for the
    class-level placeholder [Host.fact = HostFacts()]. *)
Record HostFacts : Type := mkHostFacts { host : option HostRef }.

(** The functions of [pyinfra.api.facts] that act on a host, taken as given:
    the file is not part of the sources at hand. *)
Record FactsModule (E : Type) : Type := mkFacts {
  get_host_fact : pyval -> HostRef -> string -> External E pyval;
  create_host_fact : pyval -> HostRef -> string -> pyval -> pyval -> External E pyval;
  delete_host_fact : pyval -> HostRef -> string -> pyval -> External E pyval
}.
Arguments mkFacts {E}.
Arguments get_host_fact {E}.
Arguments create_host_fact {E}.
Arguments delete_host_fact {E}.

Inductive LogLevel : Type := ERROR | INFO.

Inductive ConnectorOp : Type :=
| op_connect | op_disconnect | op_run_shell_command | op_put_file | op_get_file.

Inductive FactsOp : Type :=
| op_get_host_fact | op_create_host_fact | op_delete_host_fact.

(** What leaves the class, in the order it happens. *)
Inductive Event : Type :=
| Logged (lvl : LogLevel) (line : string)
| ExecutorCall (op : ConnectorOp) (st : pyval) (h : HostRef)
    (args : list pyval) (kwargs : list (string * pyval))
| FactsCall (op : FactsOp) (st : pyval) (h : HostRef) (args : list pyval).

Record World (E : Type) : Type := mkWorld {
  hosts : list (Host E);
  registry : gset string;
  facts : FactsModule E;
  trace : list Event;
  ext : E
}.
Arguments mkWorld {E}.
Arguments hosts {E}.
Arguments registry {E}.
Arguments facts {E}.
Arguments trace {E}.
Arguments ext {E}.

(** ** The monad of methods *)

Definition M (E A : Type) : Type := World E -> Res A * World E.

#[global] Instance M_ret {E} : MRet (M E) := fun A a w => (Ok a, w).

#[global] Instance M_bind {E} : MBind (M E) := fun A B k m w =>
  match m w with
  | (Ok a, w') => k a w'
  | (Raise e, w') => (Raise e, w')
  end.

(** [raise cls(msg)]. *)
Definition raise {E A} (cls : ExnClass) (msg : string) : M E A :=
  fun w => (Raise (mkExn cls [msg]), w).

Section Primitives.
Context {E : Type}.

(** [self.<attr>]: read an attribute of the host object [self].  An index
    outside the store has no Python counterpart; it raises, so that every
    method is total. *)
Definition getattr {A} (self : HostRef) (attr : Host E -> A) : M E A :=
  fun w =>
    match hosts w !! self with
    | Some h => (Ok (attr h), w)
    | None => (Raise (mkExn ReferenceError ["no such host object"]), w)
    end.

Definition with_connection (c : pyval) (h : Host E) : Host E :=
  mkHost (name h) (groups h) c (state h) (executor h).

Definition set_hosts (hs : list (Host E)) (w : World E) : World E :=
  mkWorld hs (registry w) (facts w) (trace w) (ext w).

(** The world in which the host object [self] holds the handle [c]. *)
Definition stored (c : pyval) (self : HostRef) (w : World E) : World E :=
  set_hosts (alter (with_connection c) self (hosts w)) w.

(** [self.connection = c]. *)
Definition setattr_connection (self : HostRef) (c : pyval) : M E unit :=
  fun w => (Ok (), stored c self w).

(** The world after the event [ev], the outside left in [e]. *)
Definition after (ev : Event) (e : E) (w : World E) : World E :=
  mkWorld (hosts w) (registry w) (facts w) (trace w ++ [ev]) e.

(** A call that leaves the class: the event is recorded, the outside
    answers and moves on. *)
Definition external {A} (ev : Event) (call : External E A) : M E A :=
  fun w => let '(r, e) := call (ext w) in (r, after ev e w).

Definition logger_error (line : string) : M E unit :=
  fun w => (Ok (), after (Logged ERROR line) (ext w) w).

Definition logger_info (line : string) : M E unit :=
  fun w => (Ok (), after (Logged INFO line) (ext w) w).

(** [args[i]] on a tuple. *)
Definition subscript (args : list string) (i : nat) : M E string :=
  match args !! i with
  | Some a => mret a
  | None => raise IndexError "tuple index out of range"
  end.

(** [try: body / except ConnectError as e: handler / else: orelse].  An
    exception of another class, or one raised by [handler] or [orelse],
    propagates. *)
Definition try_except_ConnectError_else (body : M E unit)
    (handler : Exn -> M E unit) (orelse : M E unit) : M E unit :=
  fun w =>
    match body w with
    | (Ok _, w') => orelse w'
    | (Raise e, w') =>
        if isinstance_ConnectError e then handler e w' else (Raise e, w')
    end.

(** The module [pyinfra.api.facts], as imported. *)
Definition facts_module : M E (FactsModule E) :=
  fun w => (Ok (facts w), w).

(** Modelled from the spec: [is_fact] of [pyinfra.api.facts], which is not
    among the sources; the spec's Fact Registry interface gives
    [is_registered(identifier) -> bool] over the process-wide catalog of
    fact identifiers. *)
Definition is_fact (key : string) : M E bool :=
  fun w => (Ok (bool_decide (key ∈ registry w)), w).

(** Modelled from the spec: [get_fact_names] of [pyinfra.api.facts], "all
    identifiers currently known to the Fact Registry". *)
Definition get_fact_names : M E (list string) :=
  fun w => (Ok (elements (registry w)), w).
End Primitives.

(** ** class Host *)

Module Host.
Section Methods.
Context {E : Type}.

Definition __repr__ (self : HostRef) : M E string := getattr self name.

(** The [print_prefix] property. *)
Definition print_prefix (self : HostRef) : M E string :=
  nm ← getattr self name;
  mret (prefix_format (style nm None (Some true))).

(** [style_print_prefix(fg, bold=bold)]. *)
Definition style_print_prefix (self : HostRef) (fg : option AnsiColour)
    (bold : option bool) : M E string :=
  nm ← getattr self name;
  mret (prefix_format (style nm fg bold)).

Definition _check_state (self : HostRef) : M E unit :=
  st ← getattr self state;
  if negb (truthy st) then raise TypeError "Cannot call this function with no state!"
  else mret ().

(** [if for_fact:] on an optional identifier. *)
Definition given (for_fact : option string) : bool :=
  match for_fact with
  | Some key => truthy (PStr key)
  | None => false
  end.

Definition connect (self : HostRef) (for_fact : option string)
    (show_errors : bool) : M E pyval :=
  _check_state self;;
  c ← getattr self connection;
  (if negb (truthy c) then
     try_except_ConnectError_else
       (ex ← getattr self executor;
        st ← getattr self state;
        handle ← external (ExecutorCall op_connect st self [] [])
                          (Connector.connect ex st self);
        setattr_connection self handle)
       (λ e,
         if show_errors then
           prefix ← print_prefix self;
           reason ← subscript (exn_args e) 0;
           logger_error (prefix +:+ style reason (Some fg_red) None)
         else mret ())
       (prefix ← print_prefix self;
        let log_message := prefix +:+ style "Connected" (Some fg_green) None in
        let log_message :=
          if given for_fact
          then log_message +:+ " (for " +:+ default EmptyString for_fact +:+ " fact)"
          else log_message in
        logger_info log_message)
   else mret ());;
  getattr self connection.

Definition disconnect (self : HostRef) : M E pyval :=
  _check_state self;;
  ex ← getattr self executor;
  match Connector.disconnect ex with
  | Some disconnect_func =>
      st ← getattr self state;
      external (ExecutorCall op_disconnect st self [] []) (disconnect_func st self)
  | None => mret PNone
  end.

Definition run_shell_command (self : HostRef) (args : list pyval)
    (kwargs : list (string * pyval)) : M E pyval :=
  _check_state self;;
  ex ← getattr self executor;
  st ← getattr self state;
  external (ExecutorCall op_run_shell_command st self args kwargs)
           (Connector.run_shell_command ex st self args kwargs).

Definition put_file (self : HostRef) (args : list pyval)
    (kwargs : list (string * pyval)) : M E pyval :=
  _check_state self;;
  ex ← getattr self executor;
  st ← getattr self state;
  external (ExecutorCall op_put_file st self args kwargs)
           (Connector.put_file ex st self args kwargs).

Definition get_file (self : HostRef) (args : list pyval)
    (kwargs : list (string * pyval)) : M E pyval :=
  _check_state self;;
  ex ← getattr self executor;
  st ← getattr self state;
  external (ExecutorCall op_get_file st self args kwargs)
           (Connector.get_file ex st self args kwargs).
End Methods.
End Host.

(** ** class HostFacts *)

Module HostFacts.
Section Methods.
Context {E : Type}.

(** [_check_host]; a [Host] instance is always truthy, so the test fails
    exactly on [None].  The bound host is handed back for the caller's
    [self.host]. *)
Definition _check_host (self : HostFacts) : M E HostRef :=
  match host self with
  | None => raise TypeError "Cannot call this function with no host!"
  | Some h => mret h
  end.

(** [__getattr__(key)], the read of the fact [key]: Python calls it for the
    names that are no attribute of the instance or of its class.  The
    message is formatted with [str(self.host)], that is [Host.__repr__]. *)
Definition __getattr__ (self : HostFacts) (key : string) : M E pyval :=
  h ← _check_host self;
  known ← is_fact key;
  if negb known then raise AttributeError ("No such fact: " +:+ key)
  else
    connection ← Host.connect h (Some key) true;
    if negb (truthy connection) then
      nm ← Host.__repr__ h;
      raise PyinfraError ("Could not connect to " +:+ nm +:+ " for fact " +:+ key +:+ "!")
    else
      st ← getattr h state;
      api ← facts_module;
      external (FactsCall op_get_host_fact st h [PStr key])
               (get_host_fact api st h key).

Definition _create (self : HostFacts) (key : string) (data args : pyval)
    : M E pyval :=
  h ← _check_host self;
  st ← getattr h state;
  api ← facts_module;
  external (FactsCall op_create_host_fact st h [PStr key; data; args])
           (create_host_fact api st h key data args).

Definition _delete (self : HostFacts) (key : string) (args : pyval)
    : M E pyval :=
  h ← _check_host self;
  st ← getattr h state;
  api ← facts_module;
  external (FactsCall op_delete_host_fact st h [PStr key; args])
           (delete_host_fact api st h key args).

(** [__dir__]. *)
Definition __dir__ (self : HostFacts) : M E (list string) := get_fact_names.
End Methods.
End HostFacts.

(** ** Reading the trace *)

(** The log lines of a trace, oldest first. *)
Definition log_lines (t : list Event) : list (LogLevel * string) :=
  omap (λ ev, if ev is Logged lvl line then Some (lvl, line) else None) t.

(** How many times an executor's [connect] was called. *)
Definition connect_attempts (t : list Event) : nat :=
  length (omap (λ ev, if ev is ExecutorCall op_connect _ _ _ _
                      then Some ev else None) t).

(** The calls into [pyinfra.api.facts] of a trace. *)
Definition facts_calls (t : list Event) : list FactsOp :=
  omap (λ ev, if ev is FactsCall op _ _ _ then Some op else None) t.

(** The line [connect] logs on success. *)
Definition success_line (nm : string) (for_fact : option string) : string :=
  let log_message :=
    prefix_format (style nm None (Some true)) +:+ style "Connected" (Some fg_green) None in
  if Host.given for_fact
  then log_message +:+ " (for " +:+ default EmptyString for_fact +:+ " fact)"
  else log_message.

(** The line [connect] logs for a reported [ConnectError]. *)
Definition error_line (nm reason : string) : string :=
  prefix_format (style nm None (Some true)) +:+ style reason (Some fg_red) None.

(** [connect] called [n] times in a row, results dropped. *)
Fixpoint connect_repeatedly {E} (n : nat) (self : HostRef)
    (for_fact : option string) (show_errors : bool) : M E unit :=
  match n with
  | O => mret ()
  | S n' =>
      Host.connect self for_fact show_errors;;
      connect_repeatedly n' self for_fact show_errors
  end.

(** What the invariant of the run-state asks of an operation in a world:
    it raises the precondition error and leaves the world as it was. *)
Definition rejected_untouched {E A} (m : M E A) (w : World E) : Prop :=
  ∃ msg, m w = (Raise (mkExn TypeError [msg]), w).

(** The event of the executor's [connect] being called for the host. *)
Definition attempt {E} (self : HostRef) (h : Host E) : Event :=
  ExecutorCall op_connect (state h) self [] [].

(** The error of a fact read that could not get a connection. *)
Definition could_not_connect (nm key : string) : Exn :=
  mkExn PyinfraError ["Could not connect to " +:+ nm +:+ " for fact " +:+ key +:+ "!"].

(** The precondition error of [Host._check_state]. *)
Definition no_state_error : Exn :=
  mkExn TypeError ["Cannot call this function with no state!"].

(** The host holds a live handle. *)
Definition Connected {E} (h : Host E) : Prop := truthy (connection h) = true.

(** ** Scenarios *)

(** Concrete executors and worlds.  The outside world counts the transport
    sessions opened so far. *)
Module Scenario.
Definition forward : pyval -> HostRef -> list pyval -> list (string * pyval)
    -> External nat pyval :=
  λ _ _ args _ sessions, (Ok (default PNone (head args)), sessions).

(** An executor whose [connect] always yields the handle [handle_C1]; no
    [disconnect], like the ssh connector. *)
Definition handle_C1 : pyval := PObj 1.
Definition succeeding : Connector.t nat :=
  Connector.mk (λ _ _ sessions, (Ok handle_C1, S sessions)) None forward forward forward.

(** An executor whose [connect] always fails with the given arguments. *)
Definition failing (args : list string) : Connector.t nat :=
  Connector.mk (λ _ _ sessions, (Raise (mkExn ConnectError args), sessions))
               None forward forward forward.

(** An executor whose [connect] returns [None] without raising. *)
Definition absent_handle : Connector.t nat :=
  Connector.mk (λ _ _ sessions, (Ok PNone, S sessions)) None forward forward forward.

(** An executor with a [disconnect], which closes a session. *)
Definition with_teardown : Connector.t nat :=
  Connector.mk (λ _ _ sessions, (Ok handle_C1, S sessions))
               (Some (λ _ _ sessions, (Ok PNone, pred sessions)))
               forward forward forward.

Definition api : FactsModule nat :=
  mkFacts (λ _ _ _ sessions, (Ok (PStr "linux-6.1"), sessions))
          (λ _ _ _ _ _ sessions, (Ok (PBool true), sessions))
          (λ _ _ _ _ sessions, (Ok (PBool true), sessions)).

Definition run_state : pyval := PObj 7.

Definition world_of (h : Host nat) : World nat :=
  mkWorld [h] {["os_version"]} api [] 0.

(** A host as [Host.__init__] leaves it: no state, no connection. *)
Definition fresh : World nat := world_of (Host__init__ "web0" [] succeeding).
Definition web1 : World nat :=
  world_of (mkHost "web1" [] PNone run_state succeeding).
Definition web1_connected : World nat :=
  world_of (mkHost "web1" [] handle_C1 run_state succeeding).
Definition web2 : World nat :=
  world_of (mkHost "web2" [] PNone run_state (failing ["timeout"])).
Definition web2_no_reason : World nat :=
  world_of (mkHost "web2" [] PNone run_state (failing [])).
Definition web3 : World nat :=
  world_of (mkHost "web3" [] PNone run_state absent_handle).
Definition web4_connected : World nat :=
  mkWorld [mkHost "web4" [] handle_C1 run_state with_teardown] {["os_version"]} api [] 1.

Definition facade : HostFacts := mkHostFacts (Some 0).
End Scenario.

(** ** More scenarios *)

(** The precondition error of [HostFacts._check_host]. *)
Definition no_host_error : Exn :=
  mkExn TypeError ["Cannot call this function with no host!"].

(** Executors, facts modules and worlds with more than one host. *)
Module Fleet.
(** An executor whose [connect] dies of something that is no
    [ConnectError]. *)
Definition crashing : Connector.t nat :=
  Connector.mk
    (λ _ _ sessions,
       (Raise (mkExn (OtherException "socket.timeout") ["timed out"]), sessions))
    None Scenario.forward Scenario.forward Scenario.forward.

(** An executor whose first [connect] fails and whose later ones succeed. *)
Definition flaky : Connector.t nat :=
  Connector.mk
    (λ _ _ tries,
       match tries with
       | O => (Raise (mkExn ConnectError ["timeout"]), 1)
       | S _ => (Ok Scenario.handle_C1, S tries)
       end)
    None Scenario.forward Scenario.forward Scenario.forward.

(** A facts module whose fetch raises. *)
Definition broken_api : FactsModule nat :=
  mkFacts (λ _ _ _ sessions,
             (Raise (mkExn (OtherException "OSError") ["read failed"]), sessions))
          (λ _ _ _ _ _ sessions, (Ok (PBool true), sessions))
          (λ _ _ _ _ sessions, (Ok (PBool true), sessions)).

Definition web : Host nat :=
  mkHost "web1" ["web"] PNone Scenario.run_state Scenario.succeeding.
Definition db : Host nat :=
  mkHost "db1" ["db"] PNone Scenario.run_state (Scenario.failing ["refused"]).

(** Two hosts of one deploy; the facade of the first is [Scenario.facade]. *)
Definition two_hosts : World nat :=
  mkWorld [web; db] {["os_version"]} Scenario.api [] 0.

Definition crashing_host : World nat :=
  Scenario.world_of (mkHost "web5" [] PNone Scenario.run_state crashing).
Definition flaky_host : World nat :=
  Scenario.world_of (mkHost "web6" [] PNone Scenario.run_state flaky).
Definition broken_facts : World nat :=
  mkWorld [web] {["os_version"]} broken_api [] 0.
End Fleet.

(** Unfold the methods and run them as far as the equations at hand allow. *)
Ltac unfold_methods :=
  unfold HostFacts.__getattr__, HostFacts._create, HostFacts._delete,
    HostFacts._check_host, is_fact, facts_module,
    Host.connect, Host.disconnect, Host.run_shell_command, Host.put_file,
    Host.get_file, Host._check_state, Host.print_prefix, Host.__repr__,
    try_except_ConnectError_else, subscript, raise, logger_error,
    logger_info, setattr_connection, stored, external, getattr, set_hosts, after,
    mbind, M_bind, mret, M_ret.

Ltac run :=
  unfold_methods;
  repeat first
    [ progress simpl
    | match goal with H : _ = _ |- _ => rewrite H end
    | rewrite list_lookup_alter_eq ].

(** * Properties *)

(** ** The monad and the primitives *)

Section Basics.
Context {E : Type}.
Implicit Types (w : World E) (h : Host E) (self : HostRef).

Lemma bind_ok {A B} (m : M E A) (k : A -> M E B) w a w' :
  m w = (Ok a, w') -> (m ≫= k) w = k a w'.
Proof. intros Hm. unfold mbind, M_bind. by rewrite Hm. Qed.

Lemma bind_raise {A B} (m : M E A) (k : A -> M E B) w e w' :
  m w = (Raise e, w') -> (m ≫= k) w = (Raise e, w').
Proof. intros Hm. unfold mbind, M_bind. by rewrite Hm. Qed.

Lemma getattr_lookup {A} self (attr : Host E -> A) w h :
  hosts w !! self = Some h -> getattr self attr w = (Ok (attr h), w).
Proof. intros Hh. unfold getattr. by rewrite Hh. Qed.

Lemma check_state_ok self w h :
  hosts w !! self = Some h -> truthy (state h) = true ->
  Host._check_state self w = (Ok (), w).
Proof.
  intros Hh Hst. unfold Host._check_state.
  rewrite (bind_ok _ _ _ _ _ (getattr_lookup self state w h Hh)).
  by rewrite Hst.
Qed.

Lemma check_state_fail self w h :
  hosts w !! self = Some h -> truthy (state h) = false ->
  Host._check_state self w
  = (Raise (mkExn TypeError ["Cannot call this function with no state!"]), w).
Proof.
  intros Hh Hst. unfold Host._check_state.
  rewrite (bind_ok _ _ _ _ _ (getattr_lookup self state w h Hh)).
  by rewrite Hst.
Qed.
End Basics.

(** ** Host.connect, case by case *)

Section Connect.
Context {E : Type}.
Variables (w : World E) (self : HostRef) (h : Host E).
Hypothesis Hh : hosts w !! self = Some h.
Hypothesis Hst : truthy (state h) = true.

Lemma connect_connected for_fact show_errors :
  truthy (connection h) = true ->
  Host.connect self for_fact show_errors w = (Ok (connection h), w).
Proof. intros Hc. by run. Qed.

Lemma connect_success for_fact show_errors c e' :
  truthy (connection h) = false ->
  Connector.connect (executor h) (state h) self (ext w) = (Ok c, e') ->
  Host.connect self for_fact show_errors w
  = (Ok c,
     mkWorld (alter (with_connection c) self (hosts w)) (registry w) (facts w)
             (trace w ++ [attempt self h; Logged INFO (success_line (name h) for_fact)])
             e').
Proof.
  intros Hc Hconn. run. by rewrite <- app_assoc.
Qed.

Lemma connect_failure_silent for_fact e e' :
  truthy (connection h) = false ->
  Connector.connect (executor h) (state h) self (ext w) = (Raise e, e') ->
  isinstance_ConnectError e = true ->
  Host.connect self for_fact false w = (Ok (connection h), after (attempt self h) e' w).
Proof. intros Hc Hconn He. by run. Qed.

Lemma connect_failure_reported for_fact e e' reason rest :
  truthy (connection h) = false ->
  Connector.connect (executor h) (state h) self (ext w) = (Raise e, e') ->
  isinstance_ConnectError e = true ->
  exn_args e = reason :: rest ->
  Host.connect self for_fact true w
  = (Ok (connection h),
     mkWorld (hosts w) (registry w) (facts w)
             (trace w ++ [attempt self h; Logged ERROR (error_line (name h) reason)])
             e').
Proof. intros Hc Hconn He Hargs. run. by rewrite <- app_assoc. Qed.

Lemma connect_failure_no_reason for_fact e e' :
  truthy (connection h) = false ->
  Connector.connect (executor h) (state h) self (ext w) = (Raise e, e') ->
  isinstance_ConnectError e = true ->
  exn_args e = [] ->
  Host.connect self for_fact true w
  = (Raise (mkExn IndexError ["tuple index out of range"]), after (attempt self h) e' w).
Proof. intros Hc Hconn He Hargs. by run. Qed.

Lemma connect_other_exception for_fact show_errors e e' :
  truthy (connection h) = false ->
  Connector.connect (executor h) (state h) self (ext w) = (Raise e, e') ->
  isinstance_ConnectError e = false ->
  Host.connect self for_fact show_errors w = (Raise e, after (attempt self h) e' w).
Proof. intros Hc Hconn He. by run. Qed.

(** Whatever happens, a disconnected host's [connect] starts by calling
    the executor. *)
Lemma connect_attempts_first for_fact show_errors :
  truthy (connection h) = false ->
  ∃ r w' rest,
    Host.connect self for_fact show_errors w = (r, w')
    ∧ trace w' = trace w ++ attempt self h :: rest.
Proof.
  intros Hc.
  destruct (Connector.connect (executor h) (state h) self (ext w))
    as [[c|e] e'] eqn:Hconn.
  - eexists _, _, _. split; [by apply connect_success|done].
  - destruct (isinstance_ConnectError e) eqn:He.
    + destruct show_errors.
      * destruct (exn_args e) as [|reason rest] eqn:Hargs.
        -- eexists _, _, []. split; [by eapply connect_failure_no_reason|done].
        -- eexists _, _, _. split; [by eapply connect_failure_reported|done].
      * eexists _, _, []. split; [by eapply connect_failure_silent|done].
    + eexists _, _, []. split; [by eapply connect_other_exception|done].
Qed.
End Connect.

(** ** What connect leaves alone *)

Section Frame.
Context {E : Type}.
Implicit Types (w : World E) (h : Host E) (self : HostRef).

Lemma connect_no_state self w h for_fact show_errors :
  hosts w !! self = Some h -> truthy (state h) = false ->
  Host.connect self for_fact show_errors w
  = (Raise (mkExn TypeError ["Cannot call this function with no state!"]), w).
Proof. intros Hh Hst. by run. Qed.

Lemma connect_no_host self w for_fact show_errors :
  hosts w !! self = None ->
  Host.connect self for_fact show_errors w
  = (Raise (mkExn ReferenceError ["no such host object"]), w).
Proof. intros Hh. by run. Qed.

Lemma facts_calls_snoc2 (t : list Event) op st self args kwargs lvl line :
  facts_calls (t ++ [ExecutorCall op st self args kwargs; Logged lvl line])
  = facts_calls t.
Proof. unfold facts_calls. rewrite omap_app. simpl. apply app_nil_r. Qed.

Lemma facts_calls_snoc (t : list Event) op st self args kwargs :
  facts_calls (t ++ [ExecutorCall op st self args kwargs]) = facts_calls t.
Proof. unfold facts_calls. rewrite omap_app. simpl. apply app_nil_r. Qed.

(** [connect] writes no attribute but [connection], and that one only
    when the stored handle is falsy and the executor answers; it never
    touches the registry or the facts module, and calls neither. *)
Lemma connect_frame self w h for_fact show_errors r w1 :
  hosts w !! self = Some h ->
  Host.connect self for_fact show_errors w = (r, w1) ->
  registry w1 = registry w ∧ facts w1 = facts w
  ∧ facts_calls (trace w1) = facts_calls (trace w)
  ∧ (hosts w1 = hosts w
     ∨ ∃ c e', truthy (state h) = true ∧ truthy (connection h) = false
         ∧ Connector.connect (executor h) (state h) self (ext w) = (Ok c, e')
         ∧ r = Ok c
         ∧ hosts w1 = alter (with_connection c) self (hosts w)).
Proof.
  intros Hh Hrun.
  destruct (truthy (state h)) eqn:Hst.
  2:{ rewrite (connect_no_state _ _ _ _ _ Hh Hst) in Hrun.
      injection Hrun as <- <-. auto. }
  destruct (truthy (connection h)) eqn:Hc.
  { rewrite (connect_connected _ _ _ Hh Hst _ _ Hc) in Hrun.
    injection Hrun as <- <-. auto. }
  destruct (Connector.connect (executor h) (state h) self (ext w))
    as [[c|e] e'] eqn:Hconn.
  { rewrite (connect_success _ _ _ Hh Hst _ _ _ _ Hc Hconn) in Hrun.
    injection Hrun as <- <-. unfold attempt. cbn [trace registry facts hosts].
    rewrite facts_calls_snoc2.
    repeat split; try done. right. by exists c, e'. }
  destruct (isinstance_ConnectError e) eqn:He.
  2:{ rewrite (connect_other_exception _ _ _ Hh Hst _ _ _ _ Hc Hconn He) in Hrun.
      injection Hrun as <- <-. unfold after, attempt.
      cbn [trace registry facts hosts]. rewrite facts_calls_snoc. auto. }
  destruct show_errors.
  2:{ rewrite (connect_failure_silent _ _ _ Hh Hst _ _ _ Hc Hconn He) in Hrun.
      injection Hrun as <- <-. unfold after, attempt.
      cbn [trace registry facts hosts]. rewrite facts_calls_snoc. auto. }
  destruct (exn_args e) as [|reason rest] eqn:Hargs.
  - rewrite (connect_failure_no_reason _ _ _ Hh Hst _ _ _ Hc Hconn He Hargs) in Hrun.
    injection Hrun as <- <-. unfold after, attempt.
    cbn [trace registry facts hosts]. rewrite facts_calls_snoc. auto.
  - rewrite (connect_failure_reported _ _ _ Hh Hst _ _ _ _ _ Hc Hconn He Hargs) in Hrun.
    injection Hrun as <- <-. unfold attempt.
    cbn [trace registry facts hosts]. rewrite facts_calls_snoc2. auto.
Qed.

(** After [connect] the host object is still there, with the same name,
    state and executor. *)
Lemma connect_keeps_host self w h for_fact show_errors r w1 :
  hosts w !! self = Some h ->
  Host.connect self for_fact show_errors w = (r, w1) ->
  ∃ c, hosts w1 !! self = Some (with_connection c h).
Proof.
  intros Hh Hrun.
  destruct (connect_frame _ _ _ _ _ _ _ Hh Hrun)
    as (_ & _ & _ & [Heq | (c & e' & _ & _ & _ & _ & Heq)]); rewrite Heq.
  - exists (connection h). rewrite Hh. by destruct h.
  - exists c. by rewrite list_lookup_alter_eq, Hh.
Qed.
End Frame.

(** * The claims *)

(** ** C1: a host without run-state *)

(** C1, as the claim states it, fails: on a host that has no run-state
    (as [Host.__init__] leaves it), creating a fact through the bound facade
    is not rejected: [_create] only checks that the facade has a host, calls
    [create_host_fact] with the state [None] and returns what that returns.
    Reading an unregistered fact on the same host is not answered with the
    precondition error either, but with the [AttributeError] of unknown
    facts. *)
Lemma stateless_create_is_not_rejected :
  ¬ rejected_untouched
      (HostFacts._create Scenario.facade "deb_packages" PNone PNone) Scenario.fresh
  ∧ HostFacts._create Scenario.facade "deb_packages" PNone PNone Scenario.fresh
    = (Ok (PBool true),
       after (FactsCall op_create_host_fact PNone 0 [PStr "deb_packages"; PNone; PNone])
             0 Scenario.fresh)
  ∧ ¬ rejected_untouched
        (HostFacts.__getattr__ Scenario.facade "nonexistent_fact") Scenario.fresh.
Proof.
  split; [|split].
  - intros [msg Hrej]. vm_compute in Hrej. discriminate.
  - reflexivity.
  - intros [msg Hrej]. vm_compute in Hrej. discriminate.
Qed.

(** C1, amended: on a host with no run-state, [connect], [disconnect],
    [run_shell_command], [put_file], [get_file] and the read of a registered
    fact raise the precondition error ([TypeError]) and leave the world as it
    was; the read of an unregistered fact raises the unknown-fact error
    instead, also without effect; creating and deleting a fact are guarded by
    the host binding only and hand the absent state to [create_host_fact] and
    [delete_host_fact]. *)
Theorem stateless_host_operations {E} (w : World E) (self : HostRef) (h : Host E) :
  hosts w !! self = Some h ->
  state h = PNone ->
  let facade := mkHostFacts (Some self) in
  (∀ for_fact show_errors,
      Host.connect self for_fact show_errors w = (Raise no_state_error, w))
  ∧ Host.disconnect self w = (Raise no_state_error, w)
  ∧ (∀ args kwargs,
        Host.run_shell_command self args kwargs w = (Raise no_state_error, w))
  ∧ (∀ args kwargs, Host.put_file self args kwargs w = (Raise no_state_error, w))
  ∧ (∀ args kwargs, Host.get_file self args kwargs w = (Raise no_state_error, w))
  ∧ (∀ key, key ∈ registry w ->
        HostFacts.__getattr__ facade key w = (Raise no_state_error, w))
  ∧ (∀ key, key ∉ registry w ->
        HostFacts.__getattr__ facade key w
        = (Raise (mkExn AttributeError ["No such fact: " +:+ key]), w))
  ∧ (∀ key data args r e',
        create_host_fact (facts w) PNone self key data args (ext w) = (r, e') ->
        HostFacts._create facade key data args w
        = (r, after (FactsCall op_create_host_fact PNone self
                       [PStr key; data; args]) e' w))
  ∧ (∀ key args r e',
        delete_host_fact (facts w) PNone self key args (ext w) = (r, e') ->
        HostFacts._delete facade key args w
        = (r, after (FactsCall op_delete_host_fact PNone self [PStr key; args])
                    e' w)).
Proof.
  intros Hh Hst facade. unfold no_state_error.
  split_and!; [intros| |intros|intros|intros|intros key Hkey|intros key Hkey
              |intros key data args r e' Hcall|intros key args r e' Hcall].
  - by run.
  - by run.
  - by run.
  - by run.
  - by run.
  - assert (Hreg : bool_decide (key ∈ registry w) = true)
      by by apply bool_decide_eq_true_2.
    by run.
  - assert (Hreg : bool_decide (key ∈ registry w) = false)
      by by apply bool_decide_eq_false_2.
    by run.
  - by run.
  - by run.
Qed.

Lemma stateless_host_operations_witness :
  Host.connect 0 None true Scenario.fresh = (Raise no_state_error, Scenario.fresh)
  ∧ HostFacts.__getattr__ Scenario.facade "os_version" Scenario.fresh
    = (Raise no_state_error, Scenario.fresh)
  ∧ HostFacts._delete Scenario.facade "deb_packages" PNone Scenario.fresh
    = (Ok (PBool true),
       after (FactsCall op_delete_host_fact PNone 0 [PStr "deb_packages"; PNone])
             0 Scenario.fresh).
Proof.
  destruct (stateless_host_operations Scenario.fresh 0 _ eq_refl eq_refl)
    as (Hconnect & _ & _ & _ & _ & Hread & _ & _ & Hdelete).
  split; [apply Hconnect|split].
  - apply Hread. by apply elem_of_singleton.
  - by apply Hdelete.
Defined.

(** ** Log lines and traces *)

Lemma append_assoc (a b c : string) : (a +:+ b) +:+ c = a +:+ b +:+ c.
Proof.
  induction a as [|x a IH]; [done|].
  change (String x ((a +:+ b) +:+ c) = String x (a +:+ b +:+ c)).
  by rewrite IH.
Qed.

Lemma append_nil_r (a : string) : a +:+ EmptyString = a.
Proof.
  induction a as [|x a IH]; [done|].
  change (String x (a +:+ EmptyString) = String x a). by rewrite IH.
Qed.

(** The error line, spelled out: the reset code, the bold host name between
    brackets, then the reason in red. *)
Lemma error_line_text (nm reason : string) :
  error_line nm reason
  = (ESC +:+ "[0m[" +:+ ESC +:+ "[1m") +:+ nm
    +:+ (ESC +:+ "[0m] " +:+ ESC +:+ "[31m") +:+ reason +:+ (ESC +:+ "[0m").
Proof.
  unfold error_line, prefix_format, style. rewrite !append_assoc. reflexivity.
Qed.

(** The success line, spelled out. *)
Lemma success_line_text (nm : string) (for_fact : option string) :
  success_line nm for_fact
  = (ESC +:+ "[0m[" +:+ ESC +:+ "[1m") +:+ nm
    +:+ (ESC +:+ "[0m] " +:+ ESC +:+ "[32mConnected" +:+ ESC +:+ "[0m")
    +:+ (if Host.given for_fact
         then " (for " +:+ default EmptyString for_fact +:+ " fact)" else EmptyString).
Proof.
  unfold success_line, prefix_format, style.
  destruct (Host.given for_fact); rewrite ?append_nil_r, !append_assoc;
    reflexivity.
Qed.

Lemma log_lines_app (t1 t2 : list Event) :
  log_lines (t1 ++ t2) = log_lines t1 ++ log_lines t2.
Proof. apply omap_app. Qed.

Lemma connect_attempts_app (t1 t2 : list Event) :
  connect_attempts (t1 ++ t2) = connect_attempts t1 + connect_attempts t2.
Proof. unfold connect_attempts. by rewrite omap_app, length_app. Qed.

(** ** C2: connecting a connected host *)

(** C2: on a host that holds a live handle, [connect] returns that very
    handle and leaves the world as it was: no executor call, no log line.
    In particular, when the first [connect] of a disconnected host succeeds
    with the handle [c], a second [connect] returns [c] again, and the two
    calls together made one executor call and logged one success line. *)
Theorem connect_is_idempotent {E} (w : World E) (self : HostRef) (h : Host E) :
  hosts w !! self = Some h ->
  truthy (state h) = true ->
  (Connected h ->
   ∀ for_fact show_errors,
     Host.connect self for_fact show_errors w = (Ok (connection h), w))
  ∧ (∀ c e',
       truthy (connection h) = false ->
       Connector.connect (executor h) (state h) self (ext w) = (Ok c, e') ->
       truthy c = true ->
       ∀ for_fact show_errors for_fact' show_errors',
       ∃ w1,
         Host.connect self for_fact show_errors w = (Ok c, w1)
         ∧ Host.connect self for_fact' show_errors' w1 = (Ok c, w1)
         ∧ log_lines (trace w1)
           = log_lines (trace w) ++ [(INFO, success_line (name h) for_fact)]
         ∧ connect_attempts (trace w1) = S (connect_attempts (trace w))).
Proof.
  intros Hh Hst. split.
  - intros Hc for_fact show_errors. by apply connect_connected.
  - intros c e' Hc Hconn Htruthy for_fact show_errors for_fact' show_errors'.
    eexists. split; [by apply connect_success|].
    split; [|split].
    + apply (connect_connected _ self (with_connection c h)); [|done..].
      simpl. by rewrite list_lookup_alter_eq, Hh.
    + simpl. by rewrite log_lines_app.
    + cbn [trace]. rewrite connect_attempts_app, Nat.add_comm. reflexivity.
Qed.

Lemma connect_is_idempotent_witness :
  Host.connect 0 None true Scenario.web1_connected
  = (Ok Scenario.handle_C1, Scenario.web1_connected)
  ∧ ∃ w1,
      Host.connect 0 None true Scenario.web1 = (Ok Scenario.handle_C1, w1)
      ∧ Host.connect 0 None true w1 = (Ok Scenario.handle_C1, w1)
      ∧ log_lines (trace w1)
        = [(INFO, ESC +:+ "[0m[" +:+ ESC +:+ "[1mweb1" +:+ ESC +:+ "[0m] "
                  +:+ ESC +:+ "[32mConnected" +:+ ESC +:+ "[0m")]
      ∧ connect_attempts (trace w1) = 1.
Proof.
  split.
  - apply (proj1 (connect_is_idempotent Scenario.web1_connected 0 _
                      eq_refl eq_refl)).
    reflexivity.
  - exact (proj2 (connect_is_idempotent Scenario.web1 0 _ eq_refl eq_refl)
             Scenario.handle_C1 1 eq_refl eq_refl eq_refl None true None true).
Defined.

(** ** C3: a connect that fails *)

(** C3: a [ConnectError] of the executor is to be contained by [connect]:
    no exception, [None] returned, one error line when errors are reported.
    The code misses this where the error was built without arguments.  Host
    "web2" has its run-state and no connection and its executor's [connect]
    raises [ConnectError()]: without error reporting [connect] contains the
    error and returns [None], but with error reporting the handler's
    [e.args[0]] is out of range and [connect] raises [IndexError], with no
    line logged. *)
Lemma connect_raises_on_bare_ConnectError :
  (∃ h e e',
      hosts Scenario.web2_no_reason !! 0 = Some h
      ∧ truthy (state h) = true ∧ connection h = PNone
      ∧ Connector.connect (executor h) (state h) 0 (ext Scenario.web2_no_reason)
        = (Raise e, e')
      ∧ isinstance_ConnectError e = true)
  ∧ (∃ w1,
       Host.connect 0 None true Scenario.web2_no_reason
       = (Raise (mkExn IndexError ["tuple index out of range"]), w1)
       ∧ log_lines (trace w1) = [])
  ∧ ∃ w1,
      Host.connect 0 None false Scenario.web2_no_reason = (Ok PNone, w1)
      ∧ log_lines (trace w1) = [].
Proof.
  split; [|split].
  - by eexists _, _, _.
  - by eexists.
  - by eexists.
Qed.

(** X15. Where the error has its reason, a [ConnectError] is contained.  On
    a host with run-state and no connection whose executor's [connect]
    raises a [ConnectError]-class error, [connect] without error reporting
    returns [None] and logs nothing, whatever the error carries; with error
    reporting, and the error carrying at least one argument, it returns
    [None] and logs exactly one error line: the host's prefix followed by
    the first argument, the failure reason.  No handle is stored either
    way. *)
Theorem connect_failure_is_contained {E} (w : World E) (self : HostRef)
    (h : Host E) (e : Exn) (e' : E) :
  hosts w !! self = Some h ->
  truthy (state h) = true ->
  connection h = PNone ->
  Connector.connect (executor h) (state h) self (ext w) = (Raise e, e') ->
  isinstance_ConnectError e = true ->
  (∀ for_fact,
     ∃ w1, Host.connect self for_fact false w = (Ok PNone, w1)
           ∧ log_lines (trace w1) = log_lines (trace w)
           ∧ hosts w1 = hosts w)
  ∧ (∀ for_fact reason rest,
       exn_args e = reason :: rest ->
       ∃ w1, Host.connect self for_fact true w = (Ok PNone, w1)
             ∧ log_lines (trace w1)
               = log_lines (trace w) ++ [(ERROR, error_line (name h) reason)]
             ∧ error_line (name h) reason
               = (ESC +:+ "[0m[" +:+ ESC +:+ "[1m") +:+ name h
                 +:+ (ESC +:+ "[0m] " +:+ ESC +:+ "[31m") +:+ reason
                 +:+ (ESC +:+ "[0m")
             ∧ hosts w1 = hosts w).
Proof.
  intros Hh Hst Hnone Hconn He.
  assert (Hc : truthy (connection h) = false) by by rewrite Hnone.
  split.
  - intros for_fact. eexists. split.
    + rewrite <- Hnone. by eapply connect_failure_silent.
    + split; [|done]. unfold after, attempt. simpl.
      rewrite log_lines_app. simpl. apply app_nil_r.
  - intros for_fact reason rest Hargs. eexists. split.
    + rewrite <- Hnone. by eapply connect_failure_reported.
    + split; [|split; [apply error_line_text|done]].
      simpl. by rewrite log_lines_app.
Qed.

Lemma connect_failure_is_contained_witness :
  (∃ w1, Host.connect 0 None false Scenario.web2 = (Ok PNone, w1)
         ∧ log_lines (trace w1) = [])
  ∧ (∃ w1, Host.connect 0 None true Scenario.web2 = (Ok PNone, w1)
           ∧ log_lines (trace w1)
             = [(ERROR, ESC +:+ "[0m[" +:+ ESC +:+ "[1mweb2" +:+ ESC +:+ "[0m] "
                        +:+ ESC +:+ "[31mtimeout" +:+ ESC +:+ "[0m")]).
Proof.
  destruct (connect_failure_is_contained Scenario.web2 0 _ _ 0
              eq_refl eq_refl eq_refl eq_refl eq_refl) as [Hsilent Hreported].
  split.
  - destruct (Hsilent None) as (w1 & Hrun & Hlog & _). by exists w1.
  - destruct (Hreported None "timeout" [] eq_refl) as (w1 & Hrun & Hlog & _).
    exists w1. split; [exact Hrun|exact Hlog].
Defined.

(** ** C4: reading a fact nobody registered *)

(** C4: read through a facade bound to a host, a fact identifier that is not
    in the registry raises [AttributeError] ("No such fact") and leaves the
    world as it was: the check comes before anything touches the host, so no
    executor is called and nothing is logged, whatever the host's state and
    connection.  The error is neither a [ConnectError] nor the
    [PyinfraError] of a failed connection. *)
Theorem unknown_fact_is_rejected_first {E} (w : World E) (self : HostRef)
    (key : string) :
  key ∉ registry w ->
  HostFacts.__getattr__ (mkHostFacts (Some self)) key w
  = (Raise (mkExn AttributeError ["No such fact: " +:+ key]), w)
  ∧ isinstance_ConnectError (mkExn AttributeError ["No such fact: " +:+ key]) = false
  ∧ AttributeError ≠ PyinfraError
  ∧ AttributeError ≠ ConnectError.
Proof.
  intros Hkey.
  assert (Hreg : bool_decide (key ∈ registry w) = false)
    by by apply bool_decide_eq_false_2.
  split; [by run|done].
Qed.

Lemma unknown_fact_is_rejected_first_witness :
  HostFacts.__getattr__ Scenario.facade "nonexistent_fact" Scenario.web2
  = (Raise (mkExn AttributeError ["No such fact: nonexistent_fact"]), Scenario.web2).
Proof.
  apply (unknown_fact_is_rejected_first Scenario.web2 0 "nonexistent_fact").
  change ("nonexistent_fact" ∉ ({["os_version"]} : gset string)).
  intros Hin%elem_of_singleton. discriminate.
Defined.

(** ** C5: reading a registered fact *)

(** C5: the read of a registered fact through a bound facade first runs
    [connect] with the identifier as [for_fact] and error reporting on.  An
    exception of [connect] is the read's; a falsy handle makes the read raise
    the could-not-connect [PyinfraError]; and only with a truthy handle does
    the read call [get_host_fact] with the host's state, the host and the
    identifier, in the world [connect] left, and return its result.  Up to
    that point [pyinfra.api.facts] has not been called. *)
Theorem fact_read_needs_a_connection {E} (w : World E) (self : HostRef)
    (h : Host E) (key : string) :
  hosts w !! self = Some h ->
  key ∈ registry w ->
  ∃ r w1,
    Host.connect self (Some key) true w = (r, w1)
    ∧ facts_calls (trace w1) = facts_calls (trace w)
    ∧ HostFacts.__getattr__ (mkHostFacts (Some self)) key w
      = match r with
        | Raise e => (Raise e, w1)
        | Ok handle =>
            if truthy handle
            then external (FactsCall op_get_host_fact (state h) self [PStr key])
                          (get_host_fact (facts w) (state h) self key) w1
            else (Raise (could_not_connect (name h) key), w1)
        end.
Proof.
  intros Hh Hkey.
  assert (Hreg : bool_decide (key ∈ registry w) = true)
    by by apply bool_decide_eq_true_2.
  destruct (Host.connect self (Some key) true w) as [r w1] eqn:Hrun.
  destruct (connect_frame _ _ _ _ _ _ _ Hh Hrun) as (_ & Hfacts & Hcalls & _).
  destruct (connect_keeps_host _ _ _ _ _ _ _ Hh Hrun) as [c Hh1].
  exists r, w1. split; [done|]. split; [done|].
  unfold HostFacts.__getattr__, HostFacts._check_host, Host.__repr__, is_fact,
    facts_module, getattr, raise, mbind, M_bind, mret, M_ret.
  cbv beta iota delta [host]. rewrite Hreg.
  cbv beta iota delta [negb]. rewrite Hrun.
  destruct r as [handle|e]; [|done].
  destruct (truthy handle); cbv beta iota delta [negb]; rewrite Hh1.
  - by rewrite Hfacts.
  - done.
Qed.

Lemma fact_read_needs_a_connection_witness :
  (∃ w1, HostFacts.__getattr__ Scenario.facade "os_version" Scenario.web2
         = (Raise (could_not_connect "web2" "os_version"), w1)
         ∧ facts_calls (trace w1) = [])
  ∧ (∃ w1, HostFacts.__getattr__ Scenario.facade "os_version" Scenario.web1
           = (Ok (PStr "linux-6.1"), w1)
           ∧ facts_calls (trace w1) = [op_get_host_fact]).
Proof.
  assert (Hin : "os_version" ∈ ({["os_version"]} : gset string))
    by by apply elem_of_singleton.
  split.
  - destruct (fact_read_needs_a_connection Scenario.web2 0 _ "os_version"
                eq_refl Hin) as (r & w1 & Hrun & Hcalls & Hread).
    vm_compute in Hrun. injection Hrun as <- <-.
    eexists. split; [exact Hread|reflexivity].
  - destruct (fact_read_needs_a_connection Scenario.web1 0 _ "os_version"
                eq_refl Hin) as (r & w1 & Hrun & Hcalls & Hread).
    vm_compute in Hrun. injection Hrun as <- <-.
    eexists. split; [exact Hread|reflexivity].
Defined.

(** ** C6: who writes the connection attribute *)

Section Dispatch.
Context {E : Type}.
Implicit Types (w : World E) (h : Host E) (self : HostRef).

Lemma external_after {A} (ev : Event) (call : External E A) w r e' :
  call (ext w) = (r, e') -> external ev call w = (r, after ev e' w).
Proof. intros Hcall. unfold external. by rewrite Hcall. Qed.

Lemma external_hosts {A} (ev : Event) (call : External E A) w :
  hosts (external ev call w).2 = hosts w.
Proof. unfold external. by destruct (call (ext w)). Qed.

Lemma disconnect_bound self w h :
  hosts w !! self = Some h -> truthy (state h) = true ->
  Host.disconnect self w
  = match Connector.disconnect (executor h) with
    | Some teardown =>
        external (ExecutorCall op_disconnect (state h) self [] [])
                 (teardown (state h) self) w
    | None => (Ok PNone, w)
    end.
Proof.
  intros Hh Hst. unfold Host.disconnect.
  rewrite (bind_ok _ _ _ _ _ (check_state_ok _ _ _ Hh Hst)).
  rewrite (bind_ok _ _ _ _ _ (getattr_lookup _ executor _ _ Hh)).
  destruct (Connector.disconnect (executor h)); [|done].
  by rewrite (bind_ok _ _ _ _ _ (getattr_lookup _ state _ _ Hh)).
Qed.

Lemma run_shell_command_bound self w h args kwargs :
  hosts w !! self = Some h -> truthy (state h) = true ->
  Host.run_shell_command self args kwargs w
  = external (ExecutorCall op_run_shell_command (state h) self args kwargs)
      (Connector.run_shell_command (executor h) (state h) self args kwargs) w.
Proof.
  intros Hh Hst. unfold Host.run_shell_command.
  rewrite (bind_ok _ _ _ _ _ (check_state_ok _ _ _ Hh Hst)).
  rewrite (bind_ok _ _ _ _ _ (getattr_lookup _ executor _ _ Hh)).
  by rewrite (bind_ok _ _ _ _ _ (getattr_lookup _ state _ _ Hh)).
Qed.

Lemma put_file_bound self w h args kwargs :
  hosts w !! self = Some h -> truthy (state h) = true ->
  Host.put_file self args kwargs w
  = external (ExecutorCall op_put_file (state h) self args kwargs)
      (Connector.put_file (executor h) (state h) self args kwargs) w.
Proof.
  intros Hh Hst. unfold Host.put_file.
  rewrite (bind_ok _ _ _ _ _ (check_state_ok _ _ _ Hh Hst)).
  rewrite (bind_ok _ _ _ _ _ (getattr_lookup _ executor _ _ Hh)).
  by rewrite (bind_ok _ _ _ _ _ (getattr_lookup _ state _ _ Hh)).
Qed.

Lemma get_file_bound self w h args kwargs :
  hosts w !! self = Some h -> truthy (state h) = true ->
  Host.get_file self args kwargs w
  = external (ExecutorCall op_get_file (state h) self args kwargs)
      (Connector.get_file (executor h) (state h) self args kwargs) w.
Proof.
  intros Hh Hst. unfold Host.get_file.
  rewrite (bind_ok _ _ _ _ _ (check_state_ok _ _ _ Hh Hst)).
  rewrite (bind_ok _ _ _ _ _ (getattr_lookup _ executor _ _ Hh)).
  by rewrite (bind_ok _ _ _ _ _ (getattr_lookup _ state _ _ Hh)).
Qed.

(** Without a state the four raise in the world they were called in. *)
Lemma dispatch_unbound self w h :
  hosts w !! self = Some h -> truthy (state h) = false ->
  Host.disconnect self w = (Raise no_state_error, w)
  ∧ (∀ args kwargs,
       Host.run_shell_command self args kwargs w = (Raise no_state_error, w)
       ∧ Host.put_file self args kwargs w = (Raise no_state_error, w)
       ∧ Host.get_file self args kwargs w = (Raise no_state_error, w)).
Proof.
  intros Hh Hst.
  unfold Host.disconnect, Host.run_shell_command, Host.put_file, Host.get_file.
  pose proof (check_state_fail _ _ _ Hh Hst) as Hfail.
  split; [|intros args kwargs; split_and!];
    by rewrite (bind_raise _ _ _ _ _ Hfail).
Qed.

(** None of the four writes a host attribute. *)
Lemma dispatch_keeps_hosts self w h :
  hosts w !! self = Some h ->
  hosts (Host.disconnect self w).2 = hosts w
  ∧ (∀ args kwargs,
       hosts (Host.run_shell_command self args kwargs w).2 = hosts w
       ∧ hosts (Host.put_file self args kwargs w).2 = hosts w
       ∧ hosts (Host.get_file self args kwargs w).2 = hosts w).
Proof.
  intros Hh. destruct (truthy (state h)) eqn:Hst.
  - split; [|intros args kwargs; split_and!].
    + rewrite (disconnect_bound _ _ _ Hh Hst).
      destruct (Connector.disconnect (executor h)); [|done].
      apply external_hosts.
    + rewrite (run_shell_command_bound _ _ _ _ _ Hh Hst). apply external_hosts.
    + rewrite (put_file_bound _ _ _ _ _ Hh Hst). apply external_hosts.
    + rewrite (get_file_bound _ _ _ _ _ Hh Hst). apply external_hosts.
  - destruct (dispatch_unbound _ _ _ Hh Hst) as [Hd Hops].
    split; [by rewrite Hd|]. intros args kwargs.
    by destruct (Hops args kwargs) as (-> & -> & ->).
Qed.

(** Creating and deleting a fact write no host attribute either, and a
    fact read writes none beyond what its [connect] wrote. *)
Lemma facade_keeps_hosts self w :
  (∀ key,
     hosts (HostFacts.__getattr__ (mkHostFacts (Some self)) key w).2 = hosts w
     ∨ hosts (HostFacts.__getattr__ (mkHostFacts (Some self)) key w).2
       = hosts (Host.connect self (Some key) true w).2)
  ∧ (∀ key data args,
       hosts (HostFacts._create (mkHostFacts (Some self)) key data args w).2
       = hosts w)
  ∧ (∀ key args,
       hosts (HostFacts._delete (mkHostFacts (Some self)) key args w).2
       = hosts w).
Proof.
  split_and!.
  - intros key.
    unfold HostFacts.__getattr__, HostFacts._check_host, is_fact, mbind, M_bind,
      mret, M_ret.
    cbv beta iota delta [host].
    destruct (bool_decide (key ∈ registry w)); cbv beta iota delta [negb];
      [right|by left].
    destruct (Host.connect self (Some key) true w) as [[c|e] w1]; [|done].
    unfold Host.__repr__, getattr, facts_module, raise, mbind, M_bind.
    destruct (truthy c); cbv beta iota delta [negb];
      destruct (hosts w1 !! self); try done.
    apply external_hosts.
  - intros key data args.
    unfold HostFacts._create, HostFacts._check_host, getattr, facts_module,
      mbind, M_bind, mret, M_ret.
    cbv beta iota delta [host]. destruct (hosts w !! self); [|done].
    apply external_hosts.
  - intros key args.
    unfold HostFacts._delete, HostFacts._check_host, getattr, facts_module,
      mbind, M_bind, mret, M_ret.
    cbv beta iota delta [host]. destruct (hosts w !! self); [|done].
    apply external_hosts.
Qed.
End Dispatch.

(** C6, as the claim states it, fails: host "web1" is connected and holds
    the handle [handle_C1]; [disconnect()] returns, and the host still holds
    that handle.
    Nothing in [disconnect] writes [connection]. *)
Lemma disconnect_keeps_the_handle :
  ∃ h w1 h1,
    hosts Scenario.web1_connected !! 0 = Some h ∧ Connected h
    ∧ Host.disconnect 0 Scenario.web1_connected = (Ok PNone, w1)
    ∧ hosts w1 !! 0 = Some h1 ∧ connection h1 = Scenario.handle_C1 ∧ Connected h1.
Proof. by eexists _, _, _. Qed.

(** C6, amended: [connection] changes in [connect] only, and only from a
    falsy stored value to the handle the executor's [connect] returned;
    every other outcome of [connect] leaves the host objects as they were.
    [disconnect], [run_shell_command], [put_file] and [get_file] never write
    it, nor do the facade's create and delete, and a fact read writes it
    through its [connect] only.  So after [disconnect()] a connected host
    still holds its handle. *)
Theorem connection_written_by_connect_only {E} (w : World E) (self : HostRef)
    (h : Host E) :
  hosts w !! self = Some h ->
  (∀ for_fact show_errors r w1,
     Host.connect self for_fact show_errors w = (r, w1) ->
     hosts w1 = hosts w
     ∨ ∃ c e', truthy (connection h) = false
         ∧ Connector.connect (executor h) (state h) self (ext w) = (Ok c, e')
         ∧ r = Ok c
         ∧ hosts w1 = alter (with_connection c) self (hosts w))
  ∧ hosts (Host.disconnect self w).2 = hosts w
  ∧ (∀ args kwargs,
       hosts (Host.run_shell_command self args kwargs w).2 = hosts w
       ∧ hosts (Host.put_file self args kwargs w).2 = hosts w
       ∧ hosts (Host.get_file self args kwargs w).2 = hosts w)
  ∧ (∀ key,
       hosts (HostFacts.__getattr__ (mkHostFacts (Some self)) key w).2 = hosts w
       ∨ hosts (HostFacts.__getattr__ (mkHostFacts (Some self)) key w).2
         = hosts (Host.connect self (Some key) true w).2)
  ∧ (∀ key data args,
       hosts (HostFacts._create (mkHostFacts (Some self)) key data args w).2
       = hosts w)
  ∧ (∀ key args,
       hosts (HostFacts._delete (mkHostFacts (Some self)) key args w).2
       = hosts w)
  ∧ (Connected h ->
     ∃ h1, hosts (Host.disconnect self w).2 !! self = Some h1 ∧ Connected h1).
Proof.
  intros Hh.
  destruct (facade_keeps_hosts self w) as (Hread & Hcreate & Hdelete).
  split_and!; [| | |exact Hread|exact Hcreate|exact Hdelete|].
  - intros for_fact show_errors r w1 Hrun.
    destruct (connect_frame _ _ _ _ _ _ _ Hh Hrun)
      as (_ & _ & _ & [Heq | (c & e' & _ & Hc & Hconn & Hr & Heq)]);
      [by left|right]. by exists c, e'.
  - by apply (dispatch_keeps_hosts self w h).
  - by apply (dispatch_keeps_hosts self w h).
  - intros Hc. exists h. split; [|done].
    by rewrite (proj1 (dispatch_keeps_hosts self w h Hh)).
Qed.

Lemma connection_written_by_connect_only_witness :
  hosts (Host.disconnect 0 Scenario.web4_connected).2
  = hosts Scenario.web4_connected
  ∧ ∃ h1, hosts (Host.disconnect 0 Scenario.web4_connected).2 !! 0 = Some h1
          ∧ Connected h1.
Proof.
  destruct (connection_written_by_connect_only Scenario.web4_connected 0 _
              eq_refl) as (_ & Hdisc & _ & _ & _ & _ & Hstill).
  split; [exact Hdisc|]. by apply Hstill.
Defined.

(** ** C7: disconnect *)

(** C7: on a host with run-state, [disconnect()] calls the executor's
    [disconnect] with the state and the host exactly when the executor has
    one, and returns what it returns; otherwise it returns [None] and the
    world is as it was.  The stored handle plays no part: with any other
    handle in its place, [None] included, the outcome is the same. *)
Theorem disconnect_delegates_to_teardown {E} (w : World E) (self : HostRef)
    (h : Host E) :
  hosts w !! self = Some h ->
  truthy (state h) = true ->
  match Connector.disconnect (executor h) with
  | Some teardown =>
      ∀ r e', teardown (state h) self (ext w) = (r, e') ->
              Host.disconnect self w
              = (r, after (ExecutorCall op_disconnect (state h) self [] []) e' w)
  | None => Host.disconnect self w = (Ok PNone, w)
  end
  ∧ ∀ c, Host.disconnect self (stored c self w)
         = ((Host.disconnect self w).1, stored c self (Host.disconnect self w).2).
Proof.
  intros Hh Hst. split.
  - rewrite (disconnect_bound _ _ _ Hh Hst).
    destruct (Connector.disconnect (executor h)) as [teardown|]; [|done].
    intros r e' Hcall. by apply external_after.
  - intros c.
    assert (Hh' : hosts (stored c self w) !! self = Some (with_connection c h)).
    { unfold stored, set_hosts. simpl. by rewrite list_lookup_alter_eq, Hh. }
    rewrite (disconnect_bound _ _ _ Hh Hst).
    rewrite (disconnect_bound _ _ _ Hh' Hst). simpl.
    destruct (Connector.disconnect (executor h)) as [teardown|]; [|done].
    unfold external. simpl. by destruct (teardown (state h) self (ext w)).
Qed.

Lemma disconnect_delegates_to_teardown_witness :
  Host.disconnect 0 Scenario.web4_connected
  = (Ok PNone,
     after (ExecutorCall op_disconnect Scenario.run_state 0 [] []) 0
           Scenario.web4_connected)
  ∧ Host.disconnect 0 Scenario.web1 = (Ok PNone, Scenario.web1).
Proof.
  split.
  - exact (proj1 (disconnect_delegates_to_teardown Scenario.web4_connected 0 _
                    eq_refl eq_refl) (Ok PNone) 0 eq_refl).
  - exact (proj1 (disconnect_delegates_to_teardown Scenario.web1 0 _
                    eq_refl eq_refl)).
Defined.

(** ** C8: run_shell_command, put_file, get_file *)

(** C8: on a host with run-state, each of [run_shell_command], [put_file]
    and [get_file] calls the executor's operation of the same name with the
    state, the host and the caller's positional and keyword arguments as
    they are, and returns its result as it is.  Nothing else happens: the
    host objects are untouched and the stored handle is neither looked at
    nor set, whatever it is. *)
Theorem dispatch_delegates_verbatim {E} (w : World E) (self : HostRef)
    (h : Host E) (args : list pyval) (kwargs : list (string * pyval)) :
  hosts w !! self = Some h ->
  truthy (state h) = true ->
  (∀ r e',
     Connector.run_shell_command (executor h) (state h) self args kwargs (ext w)
     = (r, e') ->
     Host.run_shell_command self args kwargs w
     = (r, after (ExecutorCall op_run_shell_command (state h) self args kwargs) e' w))
  ∧ (∀ r e',
       Connector.put_file (executor h) (state h) self args kwargs (ext w)
       = (r, e') ->
       Host.put_file self args kwargs w
       = (r, after (ExecutorCall op_put_file (state h) self args kwargs) e' w))
  ∧ (∀ r e',
       Connector.get_file (executor h) (state h) self args kwargs (ext w)
       = (r, e') ->
       Host.get_file self args kwargs w
       = (r, after (ExecutorCall op_get_file (state h) self args kwargs) e' w)).
Proof.
  intros Hh Hst. split_and!; intros r e' Hcall.
  - rewrite (run_shell_command_bound _ _ _ _ _ Hh Hst). by apply external_after.
  - rewrite (put_file_bound _ _ _ _ _ Hh Hst). by apply external_after.
  - rewrite (get_file_bound _ _ _ _ _ Hh Hst). by apply external_after.
Qed.

Lemma dispatch_delegates_verbatim_witness :
  Host.run_shell_command 0 [PStr "uname -a"] [("sudo", PBool true)] Scenario.web1
  = (Ok (PStr "uname -a"),
     after (ExecutorCall op_run_shell_command Scenario.run_state 0
              [PStr "uname -a"] [("sudo", PBool true)]) 0 Scenario.web1).
Proof.
  exact (proj1 (dispatch_delegates_verbatim Scenario.web1 0 _
                  [PStr "uname -a"] [("sudo", PBool true)] eq_refl eq_refl)
           (Ok (PStr "uname -a")) 0 eq_refl).
Defined.

(** ** C9: a ConnectError without arguments *)

(** C9: on a host with run-state and no connection whose executor's
    [connect] raises a [ConnectError]-class error, [connect] with error
    reporting on raises [IndexError] out of its own handler when the error
    has an empty [args]; it returns at all exactly when the error carries at
    least one argument. *)
Theorem bare_ConnectError_breaks_reporting {E} (w : World E) (self : HostRef)
    (h : Host E) (e : Exn) (e' : E) (for_fact : option string) :
  hosts w !! self = Some h ->
  truthy (state h) = true ->
  truthy (connection h) = false ->
  Connector.connect (executor h) (state h) self (ext w) = (Raise e, e') ->
  isinstance_ConnectError e = true ->
  (exn_args e = [] ->
   Host.connect self for_fact true w
   = (Raise (mkExn IndexError ["tuple index out of range"]),
      after (attempt self h) e' w))
  ∧ ((∃ v w1, Host.connect self for_fact true w = (Ok v, w1)) ↔ exn_args e ≠ []).
Proof.
  intros Hh Hst Hc Hconn He. split.
  - intros Hargs. by eapply connect_failure_no_reason.
  - destruct (exn_args e) as [|reason rest] eqn:Hargs.
    + rewrite (connect_failure_no_reason _ _ _ Hh Hst _ _ _ Hc Hconn He Hargs).
      split; [intros (v & w1 & Hrun); discriminate|done].
    + rewrite (connect_failure_reported _ _ _ Hh Hst _ _ _ _ _ Hc Hconn He Hargs).
      split; [done|]. intros _. by eexists _, _.
Qed.

Lemma bare_ConnectError_breaks_reporting_witness :
  Host.connect 0 None true Scenario.web2_no_reason
  = (Raise (mkExn IndexError ["tuple index out of range"]),
     after (ExecutorCall op_connect Scenario.run_state 0 [] []) 0
           Scenario.web2_no_reason).
Proof.
  exact (proj1 (bare_ConnectError_breaks_reporting Scenario.web2_no_reason 0 _
                  (mkExn ConnectError []) 0 None
                  eq_refl eq_refl eq_refl eq_refl eq_refl) eq_refl).
Defined.

(** ** C10: falsy handles *)

(** An executor whose [connect] keeps answering with a falsy handle is
    called by every [connect], and every [connect] logs its success line. *)
Lemma connect_repeatedly_falsy {E} (ex : Connector.t E) (st : pyval)
    (self : HostRef) (nm : string) (for_fact : option string)
    (show_errors : bool) :
  (∀ e, ∃ c e', Connector.connect ex st self e = (Ok c, e') ∧ truthy c = false) ->
  truthy st = true ->
  ∀ (n : nat) (w : World E) (h : Host E),
    hosts w !! self = Some h ->
    executor h = ex -> state h = st -> name h = nm ->
    truthy (connection h) = false ->
    ∃ w_n,
      connect_repeatedly n self for_fact show_errors w = (Ok (), w_n)
      ∧ connect_attempts (trace w_n) = connect_attempts (trace w) + n
      ∧ log_lines (trace w_n)
        = log_lines (trace w) ++ replicate n (INFO, success_line nm for_fact).
Proof.
  intros Hfalsy Hst. induction n as [|n IH]; intros w h Hh Hex Hstate Hname Hc.
  - exists w. simpl. split; [done|]. split; [lia|by rewrite app_nil_r].
  - destruct (Hfalsy (ext w)) as (c & e' & Hconn & Hcf).
    subst ex st nm.
    pose proof (connect_success w self h Hh Hst for_fact show_errors c e' Hc Hconn)
      as Hrun.
    set (w1 := mkWorld (alter (with_connection c) self (hosts w)) (registry w)
                 (facts w)
                 (trace w ++ [attempt self h;
                              Logged INFO (success_line (name h) for_fact)]) e')
      in Hrun.
    assert (Hh1 : hosts w1 !! self = Some (with_connection c h)).
    { unfold w1. simpl. by rewrite list_lookup_alter_eq, Hh. }
    destruct (IH w1 (with_connection c h) Hh1 eq_refl eq_refl eq_refl Hcf)
      as (w_n & Hrest & Hattempts & Hlog).
    exists w_n. split; [|split].
    + simpl. by rewrite (bind_ok _ _ _ _ _ Hrun).
    + rewrite Hattempts. unfold w1. cbn [trace].
      rewrite connect_attempts_app.
      change (connect_attempts [attempt self h; Logged INFO _]) with 1. lia.
    + rewrite Hlog. unfold w1. cbn [trace name with_connection].
      rewrite log_lines_app, <- app_assoc. reflexivity.
Qed.

(** C10: with run-state, [connect] calls the executor exactly when the
    stored handle is falsy.  A truthy handle is returned as it is, the world
    untouched.  A falsy one makes [connect] start with the executor's
    [connect]; when that returns a falsy handle without raising, [connect]
    logs the success line all the same, stores and returns that handle, and
    the host is left as disconnected as before, so that the next [connect]
    calls the executor again.  With an executor that keeps answering so,
    [n] calls of [connect] make [n] executor calls and log [n] success
    lines. *)
Theorem connect_retries_on_falsy_handle {E} (w : World E) (self : HostRef)
    (h : Host E) :
  hosts w !! self = Some h ->
  truthy (state h) = true ->
  (truthy (connection h) = true ->
   ∀ for_fact show_errors,
     Host.connect self for_fact show_errors w = (Ok (connection h), w))
  ∧ (truthy (connection h) = false ->
     ∀ for_fact show_errors,
     ∃ r w1 rest,
       Host.connect self for_fact show_errors w = (r, w1)
       ∧ trace w1 = trace w ++ attempt self h :: rest)
  ∧ (∀ c e',
       truthy (connection h) = false ->
       Connector.connect (executor h) (state h) self (ext w) = (Ok c, e') ->
       truthy c = false ->
       ∀ for_fact show_errors,
       ∃ w1,
         Host.connect self for_fact show_errors w = (Ok c, w1)
         ∧ trace w1
           = trace w ++ [attempt self h;
                         Logged INFO (success_line (name h) for_fact)]
         ∧ hosts w1 !! self = Some (with_connection c h)
         ∧ ∀ for_fact' show_errors',
           ∃ r w2 rest,
             Host.connect self for_fact' show_errors' w1 = (r, w2)
             ∧ trace w2 = trace w1 ++ attempt self h :: rest)
  ∧ ((∀ e, ∃ c e',
         Connector.connect (executor h) (state h) self e = (Ok c, e')
         ∧ truthy c = false) ->
     truthy (connection h) = false ->
     ∀ n for_fact show_errors,
     ∃ w_n,
       connect_repeatedly n self for_fact show_errors w = (Ok (), w_n)
       ∧ connect_attempts (trace w_n) = connect_attempts (trace w) + n
       ∧ log_lines (trace w_n)
         = log_lines (trace w)
           ++ replicate n (INFO, success_line (name h) for_fact)).
Proof.
  intros Hh Hst. split_and!.
  - intros Hc for_fact show_errors. by apply connect_connected.
  - intros Hc for_fact show_errors. by apply connect_attempts_first.
  - intros c e' Hc Hconn Hcf for_fact show_errors.
    eexists. split; [by apply connect_success|].
    split; [done|].
    assert (Hh1 : alter (with_connection c) self (hosts w) !! self
                  = Some (with_connection c h))
      by by rewrite list_lookup_alter_eq, Hh.
    split; [done|].
    intros for_fact' show_errors'.
    by apply (connect_attempts_first _ self (with_connection c h)).
  - intros Hfalsy Hc n for_fact show_errors.
    by eapply connect_repeatedly_falsy.
Qed.

Lemma connect_retries_on_falsy_handle_witness :
  (∃ w1, Host.connect 0 None true Scenario.web3 = (Ok PNone, w1)
         ∧ trace w1 = [ExecutorCall op_connect Scenario.run_state 0 [] [];
                       Logged INFO (success_line "web3" None)])
  ∧ (∃ w3, connect_repeatedly 3 0 None true Scenario.web3 = (Ok (), w3)
           ∧ connect_attempts (trace w3) = 3
           ∧ log_lines (trace w3) = replicate 3 (INFO, success_line "web3" None)).
Proof.
  destruct (connect_retries_on_falsy_handle Scenario.web3 0 _ eq_refl eq_refl)
    as (_ & _ & Hfalsy & Hevery).
  split.
  - destruct (Hfalsy PNone 1 eq_refl eq_refl eq_refl None true)
      as (w1 & Hrun & Htrace & _).
    by exists w1.
  - apply (Hevery (λ e, ex_intro _ PNone (ex_intro _ (S e) (conj eq_refl eq_refl)))
             eq_refl 3 None true).
Defined.

(** * Beyond the claims *)

(** ** The facade without a host *)

(** X1. The class-level placeholder [Host.fact = HostFacts()] has no host: a
    read, a create and a delete through it raise the no-host [TypeError] and
    leave the world as it was, for every fact name, registered or not (the
    host is checked before the registry); only [__dir__] works, and gives
    what it gives on a bound facade. *)
Theorem placeholder_facade_only_lists {E} (w : World E) :
  (∀ key, HostFacts.__getattr__ (mkHostFacts None) key w = (Raise no_host_error, w))
  ∧ (∀ key data args,
       HostFacts._create (mkHostFacts None) key data args w
       = (Raise no_host_error, w))
  ∧ (∀ key args,
       HostFacts._delete (mkHostFacts None) key args w = (Raise no_host_error, w))
  ∧ (∀ self, ∃ names,
       HostFacts.__dir__ (mkHostFacts None) w = (Ok names, w)
       ∧ HostFacts.__dir__ (mkHostFacts (Some self)) w = (Ok names, w)).
Proof.
  split_and!; [done..|].
  intros self. by exists (elements (registry w)).
Qed.

(** ** connect: what it returns, what it attempts *)

(** Count the events of an explicit list. *)
Ltac tally :=
  unfold attempt, connect_attempts, log_lines, facts_calls; simpl;
  repeat split; first [done | lia].

Section ConnectOutcomes.
Context {E : Type}.
Implicit Types (w : World E) (h : Host E) (self : HostRef).

(** The cases of [connect] on a host with state, by what was appended to
    the trace. *)
Lemma connect_appends self w h for_fact show_errors :
  hosts w !! self = Some h ->
  ∃ evs,
    trace (Host.connect self for_fact show_errors w).2 = trace w ++ evs
    ∧ (connect_attempts evs ≤ 1)%nat
    ∧ (length (log_lines evs) ≤ connect_attempts evs)%nat
    ∧ facts_calls evs = [].
Proof.
  intros Hh.
  destruct (truthy (state h)) eqn:Hst.
  2:{ rewrite (connect_no_state _ _ _ _ _ Hh Hst). exists [].
      rewrite app_nil_r. tally. }
  destruct (truthy (connection h)) eqn:Hc.
  { rewrite (connect_connected _ _ _ Hh Hst _ _ Hc). exists [].
    rewrite app_nil_r. tally. }
  destruct (Connector.connect (executor h) (state h) self (ext w))
    as [[c|e] e'] eqn:Hconn.
  { rewrite (connect_success _ _ _ Hh Hst _ _ _ _ Hc Hconn).
    eexists. split; [reflexivity|]. tally. }
  destruct (isinstance_ConnectError e) eqn:He.
  2:{ rewrite (connect_other_exception _ _ _ Hh Hst _ _ _ _ Hc Hconn He).
      eexists. split; [reflexivity|]. tally. }
  destruct show_errors.
  2:{ rewrite (connect_failure_silent _ _ _ Hh Hst _ _ _ Hc Hconn He).
      eexists. split; [reflexivity|]. tally. }
  destruct (exn_args e) as [|reason rest] eqn:Hargs.
  - rewrite (connect_failure_no_reason _ _ _ Hh Hst _ _ _ Hc Hconn He Hargs).
    eexists. split; [reflexivity|]. tally.
  - rewrite (connect_failure_reported _ _ _ Hh Hst _ _ _ _ _ Hc Hconn He Hargs).
    eexists. split; [reflexivity|]. tally.
Qed.
End ConnectOutcomes.

(** X2. One call of [connect] is one attempt at most: it only appends to the
    trace, at most one call of the executor's [connect] and at most one log
    line, logs nothing unless it called the executor, and never calls
    [pyinfra.api.facts]. *)
Theorem connect_is_one_attempt_at_most {E} (w : World E) (self : HostRef)
    (for_fact : option string) (show_errors : bool) :
  ∃ evs,
    trace (Host.connect self for_fact show_errors w).2 = trace w ++ evs
    ∧ (connect_attempts evs ≤ 1)%nat
    ∧ (length (log_lines evs) ≤ connect_attempts evs)%nat
    ∧ facts_calls evs = [].
Proof.
  destruct (hosts w !! self) as [h|] eqn:Hh.
  - by eapply connect_appends.
  - rewrite (connect_no_host _ _ _ _ Hh). exists [].
    rewrite app_nil_r. tally.
Qed.

(** X3. What [connect] returns is what the host holds once it has returned:
    the caller's test of the result and the host's own test of its
    [connection] always agree.  The host's name, groups, state and executor
    are those it had. *)
Theorem connect_returns_the_stored_handle {E} (w : World E) (self : HostRef)
    (h : Host E) (for_fact : option string) (show_errors : bool)
    (v : pyval) (w1 : World E) :
  hosts w !! self = Some h ->
  Host.connect self for_fact show_errors w = (Ok v, w1) ->
  hosts w1 !! self = Some (with_connection v h).
Proof.
  intros Hh Hrun.
  destruct (connect_frame _ _ _ _ _ _ _ Hh Hrun)
    as (_ & _ & _ & [Heq | (c & e' & _ & _ & _ & Hr & Heq)]).
  - rewrite Heq, Hh.
    destruct (truthy (state h)) eqn:Hst.
    2:{ by rewrite (connect_no_state _ _ _ _ _ Hh Hst) in Hrun. }
    destruct (truthy (connection h)) eqn:Hc.
    { rewrite (connect_connected _ _ _ Hh Hst _ _ Hc) in Hrun.
      injection Hrun as <- _. by destruct h. }
    destruct (Connector.connect (executor h) (state h) self (ext w))
      as [[c|e] e'] eqn:Hconn.
    { rewrite (connect_success _ _ _ Hh Hst _ _ _ _ Hc Hconn) in Hrun.
      injection Hrun as <- <-. simpl in Heq.
      apply (f_equal (λ hs, hs !! self)) in Heq.
      rewrite list_lookup_alter_eq, Hh in Heq. by injection Heq as <-. }
    destruct (isinstance_ConnectError e) eqn:He.
    2:{ by rewrite (connect_other_exception _ _ _ Hh Hst _ _ _ _ Hc Hconn He)
          in Hrun. }
    destruct show_errors.
    2:{ rewrite (connect_failure_silent _ _ _ Hh Hst _ _ _ Hc Hconn He) in Hrun.
        injection Hrun as <- _. by destruct h. }
    destruct (exn_args e) as [|reason rest] eqn:Hargs.
    + by rewrite (connect_failure_no_reason _ _ _ Hh Hst _ _ _ Hc Hconn He Hargs)
        in Hrun.
    + rewrite (connect_failure_reported _ _ _ Hh Hst _ _ _ _ _ Hc Hconn He Hargs)
        in Hrun.
      injection Hrun as <- _. by destruct h.
  - injection Hr as ->. by rewrite Heq, list_lookup_alter_eq, Hh.
Qed.

Lemma connect_returns_the_stored_handle_witness :
  hosts (Host.connect 0 None true Scenario.web1).2 !! 0
  = Some (mkHost "web1" [] Scenario.handle_C1 Scenario.run_state
                 Scenario.succeeding).
Proof.
  exact (connect_returns_the_stored_handle Scenario.web1 0 _ None true
           Scenario.handle_C1 (Host.connect 0 None true Scenario.web1).2
           eq_refl eq_refl).
Defined.

(** X4. Only [ConnectError] is contained.  When the executor's [connect] raises
    an exception of another class, [connect] lets it through whatever
    [show_errors] is: nothing is logged and no handle is stored.  A fact
    read then fails with that same exception, not with the could-not-connect
    error. *)
Theorem connect_lets_other_exceptions_through {E} (w : World E)
    (self : HostRef) (h : Host E) (e : Exn) (e' : E) :
  hosts w !! self = Some h ->
  truthy (state h) = true ->
  truthy (connection h) = false ->
  Connector.connect (executor h) (state h) self (ext w) = (Raise e, e') ->
  isinstance_ConnectError e = false ->
  (∀ for_fact show_errors,
     Host.connect self for_fact show_errors w
     = (Raise e, after (attempt self h) e' w))
  ∧ (∀ key, key ∈ registry w ->
       HostFacts.__getattr__ (mkHostFacts (Some self)) key w
       = (Raise e, after (attempt self h) e' w))
  ∧ log_lines (trace (after (attempt self h) e' w)) = log_lines (trace w)
  ∧ hosts (after (attempt self h) e' w) = hosts w.
Proof.
  intros Hh Hst Hc Hconn He. split_and!.
  - intros for_fact show_errors. by eapply connect_other_exception.
  - intros key Hkey.
    assert (Hreg : bool_decide (key ∈ registry w) = true)
      by by apply bool_decide_eq_true_2.
    unfold HostFacts.__getattr__, HostFacts._check_host, is_fact, mbind, M_bind,
      mret, M_ret.
    cbv beta iota delta [host]. rewrite Hreg. cbv beta iota delta [negb].
    by rewrite (connect_other_exception _ _ _ Hh Hst _ _ _ _ Hc Hconn He).
  - unfold after, attempt. cbn [trace]. rewrite log_lines_app. apply app_nil_r.
  - done.
Qed.

Lemma connect_lets_other_exceptions_through_witness :
  Host.connect 0 None true Fleet.crashing_host
  = (Raise (mkExn (OtherException "socket.timeout") ["timed out"]),
     after (ExecutorCall op_connect Scenario.run_state 0 [] []) 0
           Fleet.crashing_host)
  ∧ HostFacts.__getattr__ Scenario.facade "os_version" Fleet.crashing_host
    = (Raise (mkExn (OtherException "socket.timeout") ["timed out"]),
       after (ExecutorCall op_connect Scenario.run_state 0 [] []) 0
             Fleet.crashing_host).
Proof.
  destruct (connect_lets_other_exceptions_through Fleet.crashing_host 0 _ _ 0
              eq_refl eq_refl eq_refl eq_refl eq_refl) as (Hconnect & Hread & _).
  split; [apply Hconnect|]. apply Hread. by apply elem_of_singleton.
Defined.

(** X5. A failure does not stick.  After a [connect] that contained a
    [ConnectError] the host is as it was, so the next [connect] calls the
    executor again; when that call answers, its handle is stored and
    returned.  The two calls made two attempts; the log holds the error line
    of the first, if it was asked for, and the success line of the second. *)
Theorem connect_can_be_retried {E} (w : World E) (self : HostRef) (h : Host E)
    (e : Exn) (e1 : E) (reason : string) (rest : list string)
    (c : pyval) (e2 : E) :
  hosts w !! self = Some h ->
  truthy (state h) = true ->
  truthy (connection h) = false ->
  Connector.connect (executor h) (state h) self (ext w) = (Raise e, e1) ->
  isinstance_ConnectError e = true ->
  exn_args e = reason :: rest ->
  Connector.connect (executor h) (state h) self e1 = (Ok c, e2) ->
  ∀ for_fact show_errors for_fact' show_errors',
  ∃ w1 w2,
    Host.connect self for_fact show_errors w = (Ok (connection h), w1)
    ∧ hosts w1 = hosts w
    ∧ Host.connect self for_fact' show_errors' w1 = (Ok c, w2)
    ∧ hosts w2 !! self = Some (with_connection c h)
    ∧ connect_attempts (trace w2) = 2 + connect_attempts (trace w)
    ∧ log_lines (trace w2)
      = log_lines (trace w)
        ++ (if show_errors then [(ERROR, error_line (name h) reason)] else [])
        ++ [(INFO, success_line (name h) for_fact')].
Proof.
  intros Hh Hst Hc Hfail He Hargs Hok for_fact show_errors for_fact' show_errors'.
  destruct show_errors.
  - eexists _, _. split; [by eapply connect_failure_reported|].
    split; [done|].
    split; [by apply (connect_success _ self h)|].
    cbn [hosts trace]. split_and!.
    + by rewrite list_lookup_alter_eq, Hh.
    + rewrite !connect_attempts_app. tally.
    + rewrite !log_lines_app, <- app_assoc. reflexivity.
  - eexists _, _. split; [by eapply connect_failure_silent|].
    split; [done|].
    split; [by apply (connect_success _ self h)|].
    unfold after. cbn [hosts trace]. split_and!.
    + by rewrite list_lookup_alter_eq, Hh.
    + rewrite !connect_attempts_app. tally.
    + rewrite !log_lines_app, <- app_assoc. reflexivity.
Qed.

Lemma connect_can_be_retried_witness :
  ∃ w1 w2,
    Host.connect 0 None true Fleet.flaky_host = (Ok PNone, w1)
    ∧ Host.connect 0 None true w1 = (Ok Scenario.handle_C1, w2)
    ∧ connect_attempts (trace w2) = 2
    ∧ log_lines (trace w2)
      = [(ERROR, error_line "web6" "timeout"); (INFO, success_line "web6" None)].
Proof.
  destruct (connect_can_be_retried Fleet.flaky_host 0 _ _ 1 "timeout" []
              Scenario.handle_C1 2 eq_refl eq_refl eq_refl eq_refl eq_refl
              eq_refl eq_refl None true None true)
    as (w1 & w2 & Hrun1 & _ & Hrun2 & _ & Hattempts & Hlog).
  by exists w1, w2.
Defined.

(** ** connect and disconnect, one after the other *)

(** X6. [disconnect] does not undo [connect].  On a connected host, whatever
    the executor's [disconnect] did or raised, a later [connect] finds the
    old handle, returns it and does not call the executor: a host that was
    disconnected is never connected anew. *)
Theorem no_reconnection_after_disconnect {E} (w : World E) (self : HostRef)
    (h : Host E) :
  hosts w !! self = Some h ->
  truthy (state h) = true ->
  Connected h ->
  ∀ for_fact show_errors,
    Host.connect self for_fact show_errors (Host.disconnect self w).2
    = (Ok (connection h), (Host.disconnect self w).2).
Proof.
  intros Hh Hst Hc for_fact show_errors.
  apply (connect_connected _ self h); [|done..].
  by rewrite (proj1 (dispatch_keeps_hosts self w h Hh)).
Qed.

Lemma no_reconnection_after_disconnect_witness :
  (Host.disconnect 0 Scenario.web4_connected).2
  = after (ExecutorCall op_disconnect Scenario.run_state 0 [] []) 0
          Scenario.web4_connected
  ∧ Host.connect 0 None true (Host.disconnect 0 Scenario.web4_connected).2
    = (Ok Scenario.handle_C1, (Host.disconnect 0 Scenario.web4_connected).2).
Proof.
  split; [reflexivity|].
  apply (no_reconnection_after_disconnect Scenario.web4_connected 0 _
           eq_refl eq_refl eq_refl).
Defined.

(** ** One host among others *)

Section OtherHosts.
Context {E : Type}.
Implicit Types (w : World E) (h : Host E) (self other : HostRef).

Lemma read_registered self w h key r w1 :
  hosts w !! self = Some h ->
  key ∈ registry w ->
  Host.connect self (Some key) true w = (r, w1) ->
  HostFacts.__getattr__ (mkHostFacts (Some self)) key w
  = match r with
    | Raise e => (Raise e, w1)
    | Ok handle =>
        if truthy handle
        then external (FactsCall op_get_host_fact (state h) self [PStr key])
                      (get_host_fact (facts w) (state h) self key) w1
        else (Raise (could_not_connect (name h) key), w1)
    end.
Proof.
  intros Hh Hkey Hrun.
  assert (Hreg : bool_decide (key ∈ registry w) = true)
    by by apply bool_decide_eq_true_2.
  destruct (connect_frame _ _ _ _ _ _ _ Hh Hrun) as (_ & Hfacts & _ & _).
  destruct (connect_keeps_host _ _ _ _ _ _ _ Hh Hrun) as [c Hh1].
  unfold HostFacts.__getattr__, HostFacts._check_host, Host.__repr__, is_fact,
    facts_module, getattr, raise, mbind, M_bind, mret, M_ret.
  cbv beta iota delta [host]. rewrite Hreg.
  cbv beta iota delta [negb]. rewrite Hrun.
  destruct r as [handle|e]; [|done].
  destruct (truthy handle); cbv beta iota delta [negb]; rewrite Hh1; [|done].
  by rewrite Hfacts.
Qed.

Lemma connect_other_hosts self other w h for_fact show_errors :
  hosts w !! self = Some h ->
  other ≠ self ->
  hosts (Host.connect self for_fact show_errors w).2 !! other = hosts w !! other.
Proof.
  intros Hh Hne.
  destruct (Host.connect self for_fact show_errors w) as [r w1] eqn:Hrun.
  destruct (connect_frame _ _ _ _ _ _ _ Hh Hrun)
    as (_ & _ & _ & [Heq | (c & e' & _ & _ & _ & _ & Heq)]); simpl; rewrite Heq.
  - done.
  - by apply list_lookup_alter_ne.
Qed.
End OtherHosts.

(** X7. Whatever a host's [connect] or fact read does, the other host objects
    are as they were, none is added or removed, and of the host itself only
    [connection] can differ. *)
Theorem connect_concerns_one_host {E} (w : World E) (self : HostRef)
    (h : Host E) :
  hosts w !! self = Some h ->
  (∀ for_fact show_errors,
     let w1 := (Host.connect self for_fact show_errors w).2 in
     (∀ other, other ≠ self -> hosts w1 !! other = hosts w !! other)
     ∧ length (hosts w1) = length (hosts w)
     ∧ ∃ c, hosts w1 !! self = Some (with_connection c h))
  ∧ (∀ key,
       let w1 := (HostFacts.__getattr__ (mkHostFacts (Some self)) key w).2 in
       (∀ other, other ≠ self -> hosts w1 !! other = hosts w !! other)
       ∧ length (hosts w1) = length (hosts w)
       ∧ ∃ c, hosts w1 !! self = Some (with_connection c h)).
Proof.
  intros Hh.
  assert (Hconnect : ∀ for_fact show_errors,
     let w1 := (Host.connect self for_fact show_errors w).2 in
     (∀ other, other ≠ self -> hosts w1 !! other = hosts w !! other)
     ∧ length (hosts w1) = length (hosts w)
     ∧ ∃ c, hosts w1 !! self = Some (with_connection c h)).
  { intros for_fact show_errors w1. split_and!.
    - intros other Hne. by apply (connect_other_hosts self other w h).
    - unfold w1.
      destruct (Host.connect self for_fact show_errors w) as [r w'] eqn:Hrun.
      destruct (connect_frame _ _ _ _ _ _ _ Hh Hrun)
        as (_ & _ & _ & [Heq | (c & e' & _ & _ & _ & _ & Heq)]);
        simpl; rewrite Heq; [done|apply length_alter].
    - unfold w1.
      destruct (Host.connect self for_fact show_errors w) as [r w'] eqn:Hrun.
      by eapply connect_keeps_host. }
  split; [exact Hconnect|].
  intros key w1.
  destruct (proj1 (facade_keeps_hosts self w) key) as [Heq | Heq];
    unfold w1; rewrite Heq.
  - split_and!; [done..|]. exists (connection h). rewrite Hh. by destruct h.
  - apply Hconnect.
Qed.

Lemma connect_concerns_one_host_witness :
  hosts (Host.connect 0 None true Fleet.two_hosts).2 !! 1 = Some Fleet.db
  ∧ hosts (HostFacts.__getattr__ Scenario.facade "os_version" Fleet.two_hosts).2
    = [with_connection Scenario.handle_C1 Fleet.web; Fleet.db].
Proof.
  destruct (connect_concerns_one_host Fleet.two_hosts 0 _ eq_refl)
    as [Hconnect Hread].
  split.
  - apply (proj1 (Hconnect None true) 1). lia.
  - reflexivity.
Defined.

(** ** Fact reads, one after the other *)

Section Reads.
Context {E : Type}.
Implicit Types (w : World E) (h : Host E) (self : HostRef).

(** On a connected host a read is the fetch and nothing else. *)
Lemma read_connected self w h key :
  hosts w !! self = Some h ->
  truthy (state h) = true ->
  Connected h ->
  key ∈ registry w ->
  HostFacts.__getattr__ (mkHostFacts (Some self)) key w
  = external (FactsCall op_get_host_fact (state h) self [PStr key])
             (get_host_fact (facts w) (state h) self key) w.
Proof.
  intros Hh Hst Hc Hkey.
  rewrite (read_registered self w h key _ _ Hh Hkey
             (connect_connected _ _ _ Hh Hst _ _ Hc)).
  by rewrite Hc.
Qed.

Lemma external_trace {A} (ev : Event) (call : External E A) w :
  trace (external ev call w).2 = trace w ++ [ev].
Proof. unfold external. by destruct (call (ext w)). Qed.

Lemma external_registry {A} (ev : Event) (call : External E A) w :
  registry (external ev call w).2 = registry w
  ∧ facts (external ev call w).2 = facts w.
Proof. unfold external. by destruct (call (ext w)). Qed.
End Reads.

(** X8. Fact reads share the host's connection.  The first read of a registered
    fact on a disconnected host connects it, for that fact; a second read,
    of the same or of another registered fact, makes no attempt and logs
    nothing.  Each read calls [get_host_fact]: the class keeps no fact
    itself. *)
Theorem fact_reads_share_one_connection {E} (w : World E) (self : HostRef)
    (h : Host E) (key key' : string) (c : pyval) (e1 : E) :
  hosts w !! self = Some h ->
  truthy (state h) = true ->
  truthy (connection h) = false ->
  key ∈ registry w ->
  key' ∈ registry w ->
  Connector.connect (executor h) (state h) self (ext w) = (Ok c, e1) ->
  truthy c = true ->
  let w1 := (HostFacts.__getattr__ (mkHostFacts (Some self)) key w).2 in
  let w2 := (HostFacts.__getattr__ (mkHostFacts (Some self)) key' w1).2 in
  trace w2
  = trace w ++ [attempt self h;
                Logged INFO (success_line (name h) (Some key));
                FactsCall op_get_host_fact (state h) self [PStr key];
                FactsCall op_get_host_fact (state h) self [PStr key']]
  ∧ hosts w2 !! self = Some (with_connection c h).
Proof.
  intros Hh Hst Hc Hkey Hkey' Hconn Htruthy w1 w2.
  pose proof (connect_success _ _ _ Hh Hst (Some key) true _ _ Hc Hconn) as Hrun.
  pose proof (read_registered self w h key _ _ Hh Hkey Hrun) as Hread.
  cbv beta iota in Hread. rewrite Htruthy in Hread.
  assert (Hh1 : hosts w1 !! self = Some (with_connection c h)).
  { unfold w1. rewrite Hread, external_hosts. simpl.
    by rewrite list_lookup_alter_eq, Hh. }
  assert (Hreg1 : registry w1 = registry w).
  { unfold w1. rewrite Hread. by rewrite (proj1 (external_registry _ _ _)). }
  assert (Hfacts1 : facts w1 = facts w).
  { unfold w1. rewrite Hread. by rewrite (proj2 (external_registry _ _ _)). }
  assert (Htrace1 : trace w1
            = trace w ++ [attempt self h;
                          Logged INFO (success_line (name h) (Some key));
                          FactsCall op_get_host_fact (state h) self [PStr key]]).
  { unfold w1. rewrite Hread, external_trace. simpl.
    by rewrite <- app_assoc. }
  assert (Hread2 :
    HostFacts.__getattr__ (mkHostFacts (Some self)) key' w1
    = external (FactsCall op_get_host_fact (state h) self [PStr key'])
               (get_host_fact (facts w1) (state h) self key') w1).
  { apply (read_connected self w1 (with_connection c h)); try done.
    by rewrite Hreg1. }
  split.
  - unfold w2. rewrite Hread2, external_trace, Htrace1.
    by rewrite <- app_assoc.
  - unfold w2. by rewrite Hread2, external_hosts.
Qed.

Lemma fact_reads_share_one_connection_witness :
  connect_attempts
    (trace (HostFacts.__getattr__ Scenario.facade "os_version"
              (HostFacts.__getattr__ Scenario.facade "os_version"
                 Scenario.web1).2).2) = 1
  ∧ facts_calls
      (trace (HostFacts.__getattr__ Scenario.facade "os_version"
                (HostFacts.__getattr__ Scenario.facade "os_version"
                   Scenario.web1).2).2) = [op_get_host_fact; op_get_host_fact].
Proof.
  assert (Hin : "os_version" ∈ ({["os_version"]} : gset string))
    by by apply elem_of_singleton.
  destruct (fact_reads_share_one_connection Scenario.web1 0 _ "os_version"
              "os_version" Scenario.handle_C1 1 eq_refl eq_refl eq_refl Hin Hin
              eq_refl eq_refl) as [Htrace _].
  cbv zeta in Htrace. unfold Scenario.facade. rewrite Htrace. by split.
Defined.

(** X9. A fetch that fails leaves the connection behind.  When the first read on
    a disconnected host connects and [get_host_fact] then raises, the read
    raises that exception, and the host stays connected: the handle is
    stored, and a later [connect] returns it without calling the executor. *)
Theorem failed_fetch_keeps_the_connection {E} (w : World E) (self : HostRef)
    (h : Host E) (key : string) (c : pyval) (e1 : E) (err : Exn) (e2 : E) :
  hosts w !! self = Some h ->
  truthy (state h) = true ->
  truthy (connection h) = false ->
  key ∈ registry w ->
  Connector.connect (executor h) (state h) self (ext w) = (Ok c, e1) ->
  truthy c = true ->
  get_host_fact (facts w) (state h) self key e1 = (Raise err, e2) ->
  ∃ w1,
    HostFacts.__getattr__ (mkHostFacts (Some self)) key w = (Raise err, w1)
    ∧ hosts w1 !! self = Some (with_connection c h)
    ∧ ∀ for_fact show_errors,
        Host.connect self for_fact show_errors w1 = (Ok c, w1).
Proof.
  intros Hh Hst Hc Hkey Hconn Htruthy Hfetch.
  pose proof (connect_success _ _ _ Hh Hst (Some key) true _ _ Hc Hconn) as Hrun.
  pose proof (read_registered self w h key _ _ Hh Hkey Hrun) as Hread.
  cbv beta iota in Hread. rewrite Htruthy in Hread.
  unfold external in Hread. cbn [ext] in Hread. rewrite Hfetch in Hread.
  eexists. split; [exact Hread|].
  assert (Hh1 : alter (with_connection c) self (hosts w) !! self
                = Some (with_connection c h))
    by by rewrite list_lookup_alter_eq, Hh.
  split; [exact Hh1|].
  intros for_fact show_errors.
  by apply (connect_connected _ self (with_connection c h)).
Qed.

Lemma failed_fetch_keeps_the_connection_witness :
  ∃ w1,
    HostFacts.__getattr__ Scenario.facade "os_version" Fleet.broken_facts
    = (Raise (mkExn (OtherException "OSError") ["read failed"]), w1)
    ∧ Host.connect 0 None true w1 = (Ok Scenario.handle_C1, w1).
Proof.
  destruct (failed_fetch_keeps_the_connection Fleet.broken_facts 0 _
              "os_version" Scenario.handle_C1 1 _ 1 eq_refl eq_refl eq_refl
              (proj2 (elem_of_singleton (A:=string) (C:=gset string) _ _) eq_refl)
              eq_refl eq_refl eq_refl)
    as (w1 & Hread & _ & Hconnect).
  exists w1. split; [exact Hread|apply Hconnect].
Defined.

(** X10. A fact read cannot silence a connection error, and turns it into its
    own.  When the executor's [connect] raises a [ConnectError] with a
    reason, the read logs the error line and raises the could-not-connect
    [PyinfraError], which names the host and the fact; [get_host_fact] is
    not called and the host stays disconnected.  When the [ConnectError]
    has no argument, it is the handler's [IndexError] that leaves the
    read. *)
Theorem fact_read_reports_connect_errors {E} (w : World E) (self : HostRef)
    (h : Host E) (key : string) (e : Exn) (e' : E) :
  hosts w !! self = Some h ->
  truthy (state h) = true ->
  truthy (connection h) = false ->
  key ∈ registry w ->
  Connector.connect (executor h) (state h) self (ext w) = (Raise e, e') ->
  isinstance_ConnectError e = true ->
  (∀ reason rest,
     exn_args e = reason :: rest ->
     HostFacts.__getattr__ (mkHostFacts (Some self)) key w
     = (Raise (could_not_connect (name h) key),
        mkWorld (hosts w) (registry w) (facts w)
                (trace w ++ [attempt self h;
                             Logged ERROR (error_line (name h) reason)])
                e'))
  ∧ (exn_args e = [] ->
     HostFacts.__getattr__ (mkHostFacts (Some self)) key w
     = (Raise (mkExn IndexError ["tuple index out of range"]),
        after (attempt self h) e' w)).
Proof.
  intros Hh Hst Hc Hkey Hconn He. split.
  - intros reason rest Hargs.
    rewrite (read_registered self w h key _ _ Hh Hkey
               (connect_failure_reported _ _ _ Hh Hst _ _ _ _ _ Hc Hconn He Hargs)).
    by rewrite Hc.
  - intros Hargs.
    by rewrite (read_registered self w h key _ _ Hh Hkey
                  (connect_failure_no_reason _ _ _ Hh Hst _ _ _ Hc Hconn He Hargs)).
Qed.

Lemma fact_read_reports_connect_errors_witness :
  log_lines (trace (HostFacts.__getattr__ Scenario.facade "os_version"
                      Scenario.web2).2)
  = [(ERROR, error_line "web2" "timeout")]
  ∧ (HostFacts.__getattr__ Scenario.facade "os_version" Scenario.web2_no_reason).1
    = Raise (mkExn IndexError ["tuple index out of range"]).
Proof.
  assert (Hin : "os_version" ∈ ({["os_version"]} : gset string))
    by by apply elem_of_singleton.
  split.
  - destruct (fact_read_reports_connect_errors Scenario.web2 0 _ "os_version"
                _ 0 eq_refl eq_refl eq_refl Hin eq_refl eq_refl) as [Hreason _].
    unfold Scenario.facade. by rewrite (Hreason "timeout" [] eq_refl).
  - destruct (fact_read_reports_connect_errors Scenario.web2_no_reason 0 _
                "os_version" _ 0 eq_refl eq_refl eq_refl Hin eq_refl eq_refl)
      as [_ Hbare].
    unfold Scenario.facade. by rewrite (Hbare eq_refl).
Defined.

(** X11. A falsy handle is logged as a success and read as a failure.  When the
    executor's [connect] returns a falsy handle without raising, a fact read
    logs the line "Connected (for <key> fact)" and then raises the
    could-not-connect [PyinfraError]; [get_host_fact] is not called. *)
Theorem fact_read_rejects_a_falsy_handle {E} (w : World E) (self : HostRef)
    (h : Host E) (key : string) (c : pyval) (e' : E) :
  hosts w !! self = Some h ->
  truthy (state h) = true ->
  truthy (connection h) = false ->
  key ∈ registry w ->
  Connector.connect (executor h) (state h) self (ext w) = (Ok c, e') ->
  truthy c = false ->
  HostFacts.__getattr__ (mkHostFacts (Some self)) key w
  = (Raise (could_not_connect (name h) key),
     mkWorld (alter (with_connection c) self (hosts w)) (registry w) (facts w)
             (trace w ++ [attempt self h;
                          Logged INFO (success_line (name h) (Some key))])
             e').
Proof.
  intros Hh Hst Hc Hkey Hconn Hfalsy.
  rewrite (read_registered self w h key _ _ Hh Hkey
             (connect_success _ _ _ Hh Hst _ _ _ _ Hc Hconn)).
  by rewrite Hfalsy.
Qed.

Lemma fact_read_rejects_a_falsy_handle_witness :
  (HostFacts.__getattr__ Scenario.facade "os_version" Scenario.web3).1
  = Raise (could_not_connect "web3" "os_version")
  ∧ log_lines (trace (HostFacts.__getattr__ Scenario.facade "os_version"
                        Scenario.web3).2)
    = [(INFO, success_line "web3" (Some "os_version"))].
Proof.
  pose proof (fact_read_rejects_a_falsy_handle Scenario.web3 0 _ "os_version"
                PNone 1 eq_refl eq_refl eq_refl
                (proj2 (elem_of_singleton (A:=string) (C:=gset string) _ _) eq_refl)
                eq_refl eq_refl) as Hread.
  unfold Scenario.facade. by rewrite Hread.
Defined.

(** ** Creating and deleting facts *)

(** X12. Creating or deleting a fact never connects.  On any host, connected or
    not, with or without state, they call [create_host_fact] and
    [delete_host_fact] with the host's state, the host and the caller's
    arguments and return the result as it is; no executor is called, nothing
    is logged and no host attribute changes, and the fact name is not looked
    up in the registry. *)
Theorem create_and_delete_do_not_connect {E} (w : World E) (self : HostRef)
    (h : Host E) :
  hosts w !! self = Some h ->
  (∀ key data args r e',
     create_host_fact (facts w) (state h) self key data args (ext w) = (r, e') ->
     ∃ w1,
       HostFacts._create (mkHostFacts (Some self)) key data args w = (r, w1)
       ∧ trace w1
         = trace w ++ [FactsCall op_create_host_fact (state h) self
                         [PStr key; data; args]]
       ∧ hosts w1 = hosts w ∧ ext w1 = e')
  ∧ (∀ key args r e',
       delete_host_fact (facts w) (state h) self key args (ext w) = (r, e') ->
       ∃ w1,
         HostFacts._delete (mkHostFacts (Some self)) key args w = (r, w1)
         ∧ trace w1
           = trace w ++ [FactsCall op_delete_host_fact (state h) self
                           [PStr key; args]]
         ∧ hosts w1 = hosts w ∧ ext w1 = e').
Proof.
  intros Hh. split.
  - intros key data args r e' Hcall. eexists. split.
    + unfold HostFacts._create, HostFacts._check_host, facts_module, mbind,
        M_bind, mret, M_ret.
      cbv beta iota delta [host].
      rewrite (getattr_lookup _ state _ _ Hh). by apply external_after.
    + done.
  - intros key args r e' Hcall. eexists. split.
    + unfold HostFacts._delete, HostFacts._check_host, facts_module, mbind,
        M_bind, mret, M_ret.
      cbv beta iota delta [host].
      rewrite (getattr_lookup _ state _ _ Hh). by apply external_after.
    + done.
Qed.

Lemma create_and_delete_do_not_connect_witness :
  ∃ w1,
    HostFacts._create Scenario.facade "deb_packages" (PStr "nginx") PNone
      Scenario.web1 = (Ok (PBool true), w1)
    ∧ trace w1
      = [FactsCall op_create_host_fact Scenario.run_state 0
           [PStr "deb_packages"; PStr "nginx"; PNone]]
    ∧ hosts w1 = hosts Scenario.web1.
Proof.
  destruct (proj1 (create_and_delete_do_not_connect Scenario.web1 0 _ eq_refl)
              "deb_packages" (PStr "nginx") PNone (Ok (PBool true)) 0 eq_refl)
    as (w1 & Hrun & Htrace & Hhosts & _).
  by exists w1.
Defined.

(** ** The prefix and the log lines *)

Lemma length_append (a b : string) :
  String.length (a +:+ b) = (String.length a + String.length b)%nat.
Proof.
  induction a as [|x a IH]; [done|].
  change (S (String.length (a +:+ b)) = S (String.length a + String.length b)).
  by rewrite IH.
Qed.

Lemma append_cancel_r (a b c : string) : a +:+ c = b +:+ c -> a = b.
Proof.
  revert b. induction a as [|x a IH]; intros [|y b] Heq.
  - done.
  - apply (f_equal String.length) in Heq.
    change (String.length c = S (String.length (b +:+ c))) in Heq.
    rewrite length_append in Heq. lia.
  - apply (f_equal String.length) in Heq.
    change (S (String.length (a +:+ c)) = String.length c) in Heq.
    rewrite length_append in Heq. lia.
  - change (String x (a +:+ c) = String y (b +:+ c)) in Heq.
    injection Heq as -> Heq. f_equal. by apply IH.
Qed.

Lemma append_cancel_l (a b c : string) : c +:+ a = c +:+ b -> a = b.
Proof.
  induction c as [|x c IH]; [done|]. intros Heq.
  change (String x (c +:+ a) = String x (c +:+ b)) in Heq.
  injection Heq as Heq. by apply IH.
Qed.

(** A styled prefix determines the name it was made of. *)
Lemma prefix_format_style_inj (nm nm' : string) (fg : option AnsiColour)
    (bold : option bool) :
  prefix_format (style nm fg bold) = prefix_format (style nm' fg bold) ->
  nm = nm'.
Proof.
  unfold prefix_format, style. intros Heq.
  apply append_cancel_l, append_cancel_l in Heq.
  apply append_cancel_r in Heq.
  apply append_cancel_l, append_cancel_l in Heq.
  by apply append_cancel_r in Heq.
Qed.

(** X13. The prefix tells hosts apart.  [print_prefix] is [style_print_prefix]
    with a bold name: the reset code, then the bold name between brackets
    and a blank.  Neither changes anything, and under one style two hosts
    have the same prefix only if they have the same name. *)
Theorem print_prefix_tells_hosts_apart {E} (w : World E) (self self' : HostRef)
    (h h' : Host E) :
  hosts w !! self = Some h ->
  hosts w !! self' = Some h' ->
  Host.print_prefix self w
  = (Ok ((ESC +:+ "[0m[" +:+ ESC +:+ "[1m") +:+ name h +:+ (ESC +:+ "[0m] ")), w)
  ∧ Host.style_print_prefix self None (Some true) w = Host.print_prefix self w
  ∧ (∀ fg bold,
       Host.style_print_prefix self fg bold w
       = Host.style_print_prefix self' fg bold w ->
       name h = name h').
Proof.
  intros Hh Hh'. split_and!.
  - unfold Host.print_prefix.
    rewrite (bind_ok _ _ _ _ _ (getattr_lookup _ name _ _ Hh)).
    unfold mret, M_ret, prefix_format, style. f_equal. f_equal.
    rewrite !append_assoc. reflexivity.
  - done.
  - intros fg bold. unfold Host.style_print_prefix.
    rewrite (bind_ok _ _ _ _ _ (getattr_lookup _ name _ _ Hh)).
    rewrite (bind_ok _ _ _ _ _ (getattr_lookup _ name _ _ Hh')).
    unfold mret, M_ret. intros Heq.
    apply (prefix_format_style_inj _ _ fg bold). congruence.
Qed.

Lemma print_prefix_tells_hosts_apart_witness :
  Host.print_prefix 1 Fleet.two_hosts
  = (Ok (ESC +:+ "[0m[" +:+ ESC +:+ "[1mdb1" +:+ ESC +:+ "[0m] "), Fleet.two_hosts).
Proof.
  exact (proj1 (print_prefix_tells_hosts_apart Fleet.two_hosts 1 0 _ _
                  eq_refl eq_refl)).
Defined.

(** X14. The success line names the fact that asked for the connection, and only
    a fact with a name.  When [connect] connects, the line it logs is the
    bare "Connected" line of the host if [for_fact] is [None] or the empty
    string, and that line followed by " (for <key> fact)" otherwise; nothing
    else of the outcome depends on [for_fact]. *)
Theorem success_line_names_the_fact {E} (w : World E) (self : HostRef)
    (h : Host E) (c : pyval) (e' : E) (show_errors : bool) :
  hosts w !! self = Some h ->
  truthy (state h) = true ->
  truthy (connection h) = false ->
  Connector.connect (executor h) (state h) self (ext w) = (Ok c, e') ->
  let connected line :=
    (Ok c,
     mkWorld (alter (with_connection c) self (hosts w)) (registry w) (facts w)
             (trace w ++ [attempt self h; Logged INFO line]) e') in
  let bare := success_line (name h) None in
  Host.connect self None show_errors w = connected bare
  ∧ Host.connect self (Some EmptyString) show_errors w = connected bare
  ∧ ∀ key, key ≠ EmptyString ->
      Host.connect self (Some key) show_errors w
      = connected (bare +:+ " (for " +:+ key +:+ " fact)").
Proof.
  intros Hh Hst Hc Hconn connected bare. split_and!.
  - by apply connect_success.
  - by rewrite (connect_success _ _ _ Hh Hst _ _ _ _ Hc Hconn).
  - intros key Hkey.
    rewrite (connect_success _ _ _ Hh Hst _ _ _ _ Hc Hconn).
    unfold connected, bare, success_line, Host.given, truthy.
    destruct (String.eqb key EmptyString) eqn:Heq; [|done].
    by apply String.eqb_eq in Heq.
Qed.

Lemma success_line_names_the_fact_witness :
  log_lines (trace (Host.connect 0 (Some "os_version") true Scenario.web1).2)
  = [(INFO, ESC +:+ "[0m[" +:+ ESC +:+ "[1mweb1" +:+ ESC +:+ "[0m] "
            +:+ ESC +:+ "[32mConnected" +:+ ESC +:+ "[0m (for os_version fact)")].
Proof.
  destruct (success_line_names_the_fact Scenario.web1 0 _ Scenario.handle_C1 1
              true eq_refl eq_refl eq_refl eq_refl) as (_ & _ & Hkey).
  by rewrite (Hkey "os_version").
Defined.
